(** * pull_all_git_branches.py: the branch puller and its error handling

    A shallow embedding of [src/pull_all_git_branches.py].

    Python [str] values are modelled by [string]; a character is read as the
    code point of the same number, so the model covers the texts whose code
    points are below 256.  The builtins the script calls ([str.strip],
    [str.lower], [str.splitlines], [in], [int], [re.match]) are written out
    for that range in [PyStr].

    The script talks to the outside through subprocesses, the log file,
    standard input and standard output.  The outside is a state [Env] with
    two transition functions (what a subprocess does, what appending to a
    file does); standard input is the finite list of lines still to be read,
    and everything the script does to the outside is recorded, in order, in
    a trace of events.

    What the model takes for granted: [print] and the prompt of [input]
    always work; an append that fails leaves the file as it was; nothing
    interrupts the script from outside. *)

From Stdlib Require Import String Ascii List ZArith Bool Lia DecimalString.
Import ListNotations.
Local Open Scope string_scope.
Local Open Scope list_scope.

(** ** Python string builtins *)

Module PyStr.

Definition code (c : ascii) : N := N_of_ascii c.

Definition LF : ascii := ascii_of_N 10.
Definition CR : ascii := ascii_of_N 13.

(** The line feed as a one-character text, for the "\n" of the source. *)
Definition nl : string := String LF "".

(** [str.isspace] on one character: U+0009..U+000D, U+001C..U+0020,
    U+0085 and U+00A0. *)
Definition is_space (c : ascii) : bool :=
  let n := code c in
  ((9 <=? n) && (n <=? 13) || (28 <=? n) && (n <=? 32)
   || (n =? 133) || (n =? 160))%N.

(** The line boundaries of [str.splitlines]: \n \v \f \r, U+001C..U+001E
    and U+0085 (U+001F is white space but no line boundary). *)
Definition is_linebreak (c : ascii) : bool :=
  let n := code c in
  ((10 <=? n) && (n <=? 13) || (28 <=? n) && (n <=? 30) || (n =? 133))%N.

Definition is_empty (s : string) : bool :=
  match s with EmptyString => true | String _ _ => false end.

Fixpoint lstrip (s : string) : string :=
  match s with
  | EmptyString => EmptyString
  | String c r => if is_space c then lstrip r else s
  end.

Fixpoint rstrip (s : string) : string :=
  match s with
  | EmptyString => EmptyString
  | String c r =>
      let r' := rstrip r in
      if is_space c && is_empty r' then EmptyString else String c r'
  end.

(** [s.strip()] *)
Definition strip (s : string) : string := rstrip (lstrip s).

(** [str.lower] on one character: A..Z, U+00C0..U+00D6 and U+00D8..U+00DE
    move up by 32. *)
Definition lower_char (c : ascii) : ascii :=
  let n := code c in
  if ((65 <=? n) && (n <=? 90) || (192 <=? n) && (n <=? 214)
      || (216 <=? n) && (n <=? 222))%N
  then ascii_of_N (n + 32) else c.

(** [s.lower()] *)
Fixpoint lower (s : string) : string :=
  match s with
  | EmptyString => EmptyString
  | String c r => String (lower_char c) (lower r)
  end.

(** [s.splitlines()]: [cur] is the line being read, [after_cr] tells that
    the last character was a carriage return, whose following line feed
    belongs to the same boundary.  A last line without a boundary is kept
    when it is not empty. *)
Fixpoint splitlines_go (after_cr : bool) (cur s : string) : list string :=
  match s with
  | EmptyString => if is_empty cur then [] else [cur]
  | String c r =>
      if after_cr && Ascii.eqb c LF then splitlines_go false cur r
      else if is_linebreak c then cur :: splitlines_go (Ascii.eqb c CR) "" r
      else splitlines_go false (cur ++ String c "") r
  end.

Definition splitlines (s : string) : list string := splitlines_go false "" s.

(** [s.lstrip(chars)]: the leading characters that occur in [chars] go. *)
Fixpoint lstrip_chars (chars s : string) : string :=
  match s with
  | EmptyString => EmptyString
  | String c r =>
      if existsb (Ascii.eqb c) (list_ascii_of_string chars)
      then lstrip_chars chars r else s
  end.

(** [needle in hay] *)
Fixpoint str_in (needle hay : string) : bool :=
  if prefix needle hay then true
  else match hay with
       | EmptyString => false
       | String _ r => str_in needle r
       end.

(** [sep.join(parts)] *)
Fixpoint join (sep : string) (parts : list string) : string :=
  match parts with
  | [] => ""
  | [p] => p
  | p :: ps => p ++ sep ++ join sep ps
  end.

(** The text left after [p] when [s] starts with [p]. *)
Fixpoint drop_prefix (p s : string) : option string :=
  match p, s with
  | EmptyString, _ => Some s
  | String a p', String b s' => if Ascii.eqb a b then drop_prefix p' s' else None
  | String _ _, EmptyString => None
  end.

(** The longest run of characters other than the line feed at the start
    of [s]: what a greedy [.+] or [.*] takes. *)
Fixpoint dots (s : string) : string :=
  match s with
  | EmptyString => EmptyString
  | String c r => if Ascii.eqb c LF then EmptyString else String c (dots r)
  end.

(** [re.match(r"origin/(.+)", line)]: group 1 of the match, [None] when
    there is no match.  The pattern is anchored at the start only, and
    [.+] wants one character at least. *)
Definition match_origin (line : string) : option string :=
  match drop_prefix "origin/" line with
  | Some rest => let g := dots rest in if is_empty g then None else Some g
  | None => None
  end.

Definition is_digit (c : ascii) : bool :=
  let n := code c in ((48 <=? n) && (n <=? 57))%N.

Definition digit_value (c : ascii) : Z := Z.of_N (code c) - 48.

(** The digits of a decimal literal after a first digit: [acc] is the value
    read so far and [n] the number of digits read.  One underscore may
    stand between two digits. *)
Fixpoint int_digits (acc : Z) (n : nat) (s : string) : option (Z * nat) :=
  match s with
  | EmptyString => Some (acc, n)
  | String c r =>
      if is_digit c then int_digits (acc * 10 + digit_value c) (S n) r
      else if Ascii.eqb c "_" then
        match r with
        | String d r' =>
            if is_digit d then int_digits (acc * 10 + digit_value d) (S n) r'
            else None
        | EmptyString => None
        end
      else None
  end.

(** The interpreter's default limit on the digits of a decimal text
    ([sys.get_int_max_str_digits()]). *)
Definition int_max_str_digits : nat := 4300.

(** [int(s)]: [None] stands for the [ValueError].  White space around the
    literal is dropped, one sign may come first. *)
Definition py_int (s : string) : option Z :=
  let t := strip s in
  let '(neg, body) :=
    match t with
    | String c r =>
        if Ascii.eqb c "-" then (true, r)
        else if Ascii.eqb c "+" then (false, r)
        else (false, t)
    | EmptyString => (false, t)
    end in
  match body with
  | String c r =>
      if is_digit c then
        match int_digits (digit_value c) 1 r with
        | Some (v, n) =>
            if Nat.leb n int_max_str_digits
            then Some (if neg then (- v)%Z else v)
            else None
        | None => None
        end
      else None
  | EmptyString => None
  end.

End PyStr.

Import PyStr.

(** ** The outside world *)

(** What [subprocess.run(cmd, ..., check=True, timeout=...)] can do: the
    process ends with a return code and its two captured streams, it is
    killed at the timeout ([TimeoutExpired]), or the call raises something
    else (an [OSError] when the program or the directory is missing, a
    decoding error), with the text of that exception. *)
Inductive proc_result : Type :=
| Exited (returncode : Z) (stdout stderr : string)
| TimedOut
| RunRaised (msg : string).

(** The exceptions that travel through the script.  [PyException msg] is any
    instance of [Exception], with [str(e) = msg]; [SystemExit] is raised by
    [sys.exit] and is not an [Exception], so [except Exception] lets it
    through. *)
Inductive exn : Type :=
| PyException (msg : string)
| SystemExit (code : Z).

Inductive result (A : Type) : Type :=
| Ret (a : A)
| Raise (e : exn).
Arguments Ret {A} a.
Arguments Raise {A} e.

(** What the script does to the outside, in the order it does it. *)
Inductive event : Type :=
| Spawn (cmd : list string)            (* subprocess.run(cmd, ...) *)
| Print (text : string)                (* print(text) *)
| Prompt (text : string)               (* input(text) shows its prompt *)
| Append (path data : string).         (* open(path, "a") and f.write(data) *)

Definition LOG_FILE : string := "pull_errors.log".
Definition DEFAULT_TIMEOUT : Z := 10.
Definition DEFAULT_CWD : string := ".".

(** [str(n)] for an integer. *)
Definition str_of_Z (n : Z) : string :=
  DecimalString.NilZero.string_of_int (Z.to_int n).

(** The process exit status a run of [main()] ends with: 0 when [main]
    returns, the code given to [sys.exit], 1 for an uncaught exception. *)
Definition exit_status (r : result unit) : Z :=
  match r with
  | Ret _ => 0
  | Raise (SystemExit code) => code
  | Raise (PyException _) => 1
  end.

(** A scripted outside: the results of the subprocesses to come, in order,
    and the outcomes of the appends to come ([None]: the data is written,
    [Some msg]: the open or the write raises).  Past the end of a script
    every process ends with code 0 and no output, every append works. *)
Module Scripted.

Definition Env : Type := (list proc_result * list (option string))%type.

Definition subprocess_run (cmd : list string) (cwd : string) (timeout : Z)
    (e : Env) : proc_result * Env :=
  match fst e with
  | [] => (Exited 0 "" "", e)
  | r :: rs => (r, (rs, snd e))
  end.

Definition file_append (path data : string) (e : Env) : option string * Env :=
  match snd e with
  | [] => (None, e)
  | r :: rs => (r, (fst e, rs))
  end.

(** The text of the [ValueError] of [int(s)], as far as the examples
    need it. *)
Definition value_error (s : string) : string :=
  ("invalid literal for int() with base 10: '" ++ s ++ "'")%string.

Definition env (procs : list proc_result) (appends : list (option string))
    : Env := (procs, appends).

End Scripted.

(** ** The script *)

Section Driver.

(** The outside: its state, what running a command does to it, what
    appending [data] to the file [path] does to it ([None]: written,
    [Some msg]: [open] or the write raised an exception of text [msg]).
    [value_error s] is the text of the [ValueError] that [int(s)]
    raises. *)
Context {Env : Type}.
Variable subprocess_run :
  list string -> string -> Z -> Env -> proc_result * Env.
Variable file_append : string -> string -> Env -> option string * Env.
Variable value_error : string -> string.

(** [stdin]: the lines still to be read; [trace]: the events so far, the
    oldest first; [log_file]: what has been written to the file
    [LOG_FILE], one element for each write. *)
Record World : Type := mkWorld {
  os : Env;
  stdin : list string;
  trace : list event;
  log_file : list string
}.

(** State and exceptions. *)
Definition M (A : Type) : Type := World -> result A * World.

Definition ret {A : Type} (a : A) : M A := fun w => (Ret a, w).

Definition raise {A : Type} (e : exn) : M A := fun w => (Raise e, w).

Definition bind {A B : Type} (m : M A) (k : A -> M B) : M B :=
  fun w =>
    match m w with
    | (Ret a, w') => k a w'
    | (Raise e, w') => (Raise e, w')
    end.

(** [try: body / except Exception as e: handler(str(e))] *)
Definition try_except {A : Type} (body : M A) (handler : string -> M A) : M A :=
  fun w =>
    match body w with
    | (Raise (PyException msg), w') => handler msg w'
    | other => other
    end.

Notation "x <- m ;; k" := (bind m (fun x => k))
  (at level 61, m at next level, right associativity).
Notation "m ;; k" := (bind m (fun _ => k))
  (at level 61, right associativity).

Definition emit (ev : event) : M unit :=
  fun w => (Ret tt, mkWorld (os w) (stdin w) (trace w ++ [ev]) (log_file w)).

Definition print (text : string) : M unit := emit (Print text).

Definition sys_exit {A : Type} (code : Z) : M A := raise (SystemExit code).

(** [int(s)] *)
Definition int (s : string) : M Z :=
  match py_int s with
  | Some n => ret n
  | None => raise (PyException (value_error s))
  end.

(** What [run_command] makes of the result of [subprocess.run]: the
    stripped output, or an [Exception]. *)
Definition run_outcome (cmd : list string) (timeout : Z) (r : proc_result)
    : result string :=
  match r with
  | Exited rc out err =>
      if (rc =? 0)%Z then Ret (strip out)
      else Raise (PyException (strip err))
  | TimedOut =>
      Raise (PyException ("Command '" ++ join " " cmd ++ "' timed out after "
                          ++ str_of_Z timeout ++ " seconds."))
  | RunRaised msg => Raise (PyException msg)
  end.

(** [run_command(cmd)], with the default [cwd] and [timeout]. *)
Definition run_command (cmd : list string) : M string :=
  fun w =>
    let '(r, e) := subprocess_run cmd DEFAULT_CWD DEFAULT_TIMEOUT (os w) in
    (run_outcome cmd DEFAULT_TIMEOUT r,
     mkWorld e (stdin w) (trace w ++ [Spawn cmd]) (log_file w)).

(** [with open(LOG_FILE, "a") as f: f.write(data)] *)
Definition append_log (data : string) : M unit :=
  fun w =>
    let '(r, e) := file_append LOG_FILE data (os w) in
    let t := trace w ++ [Append LOG_FILE data] in
    match r with
    | None => (Ret tt, mkWorld e (stdin w) t (log_file w ++ [data]))
    | Some msg => (Raise (PyException msg), mkWorld e (stdin w) t (log_file w))
    end.

(** The line that [log_pull_error] writes. *)
Definition log_entry (branch error_message : string) : string :=
  ("Pull error on branch '" ++ branch ++ "': " ++ error_message ++ nl)%string.

(** [log_pull_error(branch, error_message)], with the default [log_file]. *)
Definition log_pull_error (branch error_message : string) : M unit :=
  try_except
    (append_log (log_entry branch error_message))
    (fun ex => print ("Error logging pull error: " ++ ex)).

Definition is_git_repo : M bool :=
  try_except
    (output <- run_command ["git"; "rev-parse"; "--is-inside-work-tree"] ;;
     ret (String.eqb (lower output) "true"))
    (fun _ => ret false).

(** The loop of [get_remote_branches] over the lines of the listing. *)
Definition parse_remote_branches (output : string) : list string :=
  fold_left
    (fun (branches : list string) (line : string) =>
       let line := strip line in
       if str_in "->" line then branches
       else match match_origin line with
            | Some group1 => branches ++ [group1]
            | None => branches ++ [line]
            end)
    (splitlines output) [].

Definition get_remote_branches : M (list string) :=
  output <- run_command ["git"; "branch"; "-r"] ;;
  ret (parse_remote_branches output).

Definition get_local_branches : M (list string) :=
  output <- run_command ["git"; "branch"] ;;
  ret (fold_left
         (fun (branches : list string) (line : string) =>
            let branch := strip (lstrip_chars "*" (strip line)) in
            branches ++ [branch])
         (splitlines output) []).

(** The command of [branch_needs_pull]. *)
Definition rev_list_count (branch : string) : list string :=
  ["git"; "rev-list"; "--count"; (branch ++ "..origin/" ++ branch)%string].

Definition branch_needs_pull (branch : string) : M bool :=
  try_except
    (count <- run_command (rev_list_count branch) ;;
     n <- int count ;;
     ret (0 <? n)%Z)
    (fun e =>
       print ("  Could not compare branch '" ++ branch ++ "' with remote: " ++ e) ;;
       ret true).

(** The standard input after a line has been read: [inp] is what is
    left. *)
Definition set_stdin (inp : list string) : M unit :=
  fun w => (Ret tt, mkWorld (os w) inp (trace w) (log_file w)).

Definition retry_prompt (branch : string) : string :=
  ("Pull error on branch '" ++ branch ++ "'. Try again? (y/n): ")%string.

(** The [while True] loop of [main].  [input] shows its prompt and takes
    the next line of standard input; at the end of the input it raises
    [EOFError], which nothing in [main] catches.  [inp] is the standard
    input at the start of the loop, and each turn reads one line of it. *)
Fixpoint retry_loop (branch : string) (inp : list string) : M unit :=
  emit (Prompt (retry_prompt branch)) ;;
  match inp with
  | [] => raise (PyException "EOF when reading a line")
  | answer :: inp' =>
      set_stdin inp' ;;
      let user_input := lower (strip answer) in
      if String.eqb user_input "y" then
        again <- try_except
                   (print "  Retrying pull..." ;;
                    run_command ["git"; "pull"] ;;
                    print "  Pull succeeded." ;;
                    ret false)
                   (fun error_msg_retry =>
                      print ("  Retry failed: " ++ error_msg_retry) ;;
                      log_pull_error branch ("Retry: " ++ error_msg_retry) ;;
                      ret true) ;;
        if again then retry_loop branch inp' else ret tt
      else if String.eqb user_input "n" then
        print ("  Skipping pull for branch '" ++ branch ++ "'.")
      else
        print "  Please enter 'y' (yes) or 'n' (no)." ;;
        retry_loop branch inp'
  end.

(** The last [try] of the loop body of [main]: the pull, and on its failure
    the log entry and the retry prompt. *)
Definition pull_branch (branch : string) : M unit :=
  try_except
    (print "  Pulling latest changes..." ;;
     run_command ["git"; "pull"] ;;
     ret tt)
    (fun error_msg =>
       print ("  Error pulling branch '" ++ branch ++ "': " ++ error_msg) ;;
       log_pull_error branch error_msg ;;
       (fun w => retry_loop branch (stdin w) w)).

(** The body of the [for] loop of [main]; a [continue] is a return. *)
Definition process_branch (branch : string) : M unit :=
  print (nl ++ "Processing branch '" ++ branch ++ "':") ;;
  checked_out <- try_except
                   (print "Checking out branch..." ;;
                    run_command ["git"; "checkout"; branch] ;;
                    ret true)
                   (fun e =>
                      print ("  Error checking out branch '" ++ branch ++ "': " ++ e) ;;
                      ret false) ;;
  if negb checked_out then ret tt
  else
    up_to_date <- try_except
                    (needs_pull <- branch_needs_pull branch ;;
                     if negb needs_pull then
                       print "  Branch is already up to date. Skipping pull." ;;
                       ret true
                     else ret false)
                    (fun e =>
                       print ("  Could not determine status for branch '"
                              ++ branch ++ "': " ++ e) ;;
                       ret false) ;;
    if up_to_date then ret tt else pull_branch branch.

Fixpoint for_each_branch (branches : list string) : M unit :=
  match branches with
  | [] => ret tt
  | branch :: rest => process_branch branch ;; for_each_branch rest
  end.

Definition main : M unit :=
  repo <- is_git_repo ;;
  (if negb repo then
     print "Error: This directory is not a Git repository." ;;
     sys_exit 1
   else ret tt) ;;
  print "Fetching all remote branches..." ;;
  try_except
    (run_command ["git"; "fetch"; "--all"] ;; ret tt)
    (fun _ =>
       print "Failed to fetch remote branches. Exiting." ;;
       sys_exit 1) ;;
  remote_branches <- try_except
                       (remote_branches <- get_remote_branches ;;
                        match remote_branches with
                        | [] => print "No remote branches found." ;; sys_exit 0
                        | _ :: _ => ret remote_branches
                        end)
                       (fun _ =>
                          print "Failed to retrieve remote branches." ;;
                          sys_exit 1) ;;
  for_each_branch remote_branches ;;
  print (nl ++ "All branches processed.").

(** *** Definitions the statements use *)

(** The name appended for a stripped line that the loop of
    [get_remote_branches] keeps: the two branches of its [if m]. *)
Definition branch_name (line : string) : string :=
  match match_origin line with
  | Some group1 => group1
  | None => line
  end.

(** The lines of a listing that are no symbolic references, stripped. *)
Definition kept_lines (output : string) : list string :=
  filter (fun line => negb (str_in "->" line)) (map strip (splitlines output)).

(** The canonical name in the words of the specification: a leading
    "origin/" is taken off when the line has one, and any other line is the
    name. *)
Definition strip_remote_prefix (line : string) : string :=
  match drop_prefix "origin/" line with
  | Some rest => rest
  | None => line
  end.

(** What a write of [data] adds to the log file, and what it prints, for
    the outcome [r] of the append. *)
Definition written (r : option string) (data : string) : list string :=
  match r with
  | None => [data]
  | Some _ => []
  end.

Definition write_report (r : option string) : list event :=
  match r with
  | None => []
  | Some ex => [Print ("Error logging pull error: " ++ ex)]
  end.

(** The world that follows [w] when the outside has become [e], the
    standard input [inp], and the events [evs] and the log entries [logs]
    have been added. *)
Definition after (w : World) (e : Env) (inp : list string)
    (evs : list event) (logs : list string) : World :=
  mkWorld e inp (trace w ++ evs) (log_file w ++ logs).

(** A computation never takes back an event: it adds to the trace. *)
Definition grows {A : Type} (m : M A) : Prop :=
  forall w, exists evs, trace (snd (m w)) = trace w ++ evs.

(** The name that the loop of [get_local_branches] appends for a line. *)
Definition local_name (line : string) : string :=
  strip (lstrip_chars "*" (strip line)).

(** *** What a run may do to the outside *)

Definition is_prompt (ev : event) : bool :=
  match ev with
  | Prompt _ => true
  | _ => false
  end.

Definition is_append (ev : event) : bool :=
  match ev with
  | Append _ _ => true
  | _ => false
  end.

Definition is_pull (ev : event) : bool :=
  match ev with
  | Spawn cmd =>
      if list_eq_dec string_dec cmd ["git"; "pull"] then true else false
  | _ => false
  end.

(** How many events of a trace pass the test [p]. *)
Definition count (p : event -> bool) (evs : list event) : nat :=
  length (filter p evs).

(** The six commands that [main] gives to [run_command]. *)
Definition git_command (cmd : list string) : Prop :=
  cmd = ["git"; "rev-parse"; "--is-inside-work-tree"] \/
  cmd = ["git"; "fetch"; "--all"] \/
  cmd = ["git"; "branch"; "-r"] \/
  cmd = ["git"; "pull"] \/
  (exists branch, cmd = ["git"; "checkout"; branch]) \/
  (exists branch, cmd = rev_list_count branch).

(** The events of a run of [main]: one of the six commands, a print, a
    prompt, or an entry for the file [LOG_FILE]. *)
Definition allowed (ev : event) : Prop :=
  match ev with
  | Spawn cmd => git_command cmd
  | Append path data =>
      path = LOG_FILE /\
      exists branch error_message, data = log_entry branch error_message
  | Print _ => True
  | Prompt _ => True
  end.

(** [w'] comes after [w] in a run of the script: the trace has grown by
    allowed events, the log by data of appends among them, the standard
    input has lost lines at its front, no more than there were prompts, and
    there were no more appends than pulls. *)
Definition follows (w w' : World) : Prop :=
  exists (evs : list event) (new used : list string),
    trace w' = trace w ++ evs /\
    Forall allowed evs /\
    log_file w' = log_file w ++ new /\
    Forall (fun data => In (Append LOG_FILE data) evs) new /\
    stdin w = used ++ stdin w' /\
    length used <= count is_prompt evs /\
    count is_append evs <= count is_pull evs.

Definition safe {A : Type} (m : M A) : Prop :=
  forall w, follows w (snd (m w)).

(** [m] raises nothing but exceptions that satisfy [P]. *)
Definition raises_only {A : Type} (P : exn -> Prop) (m : M A) : Prop :=
  forall w e, fst (m w) = Raise e -> P e.

(** The [EOFError] of [input] at the end of the standard input. *)
Definition end_of_input : exn := PyException "EOF when reading a line".

(** ** Facts about the string builtins *)

Lemma str_in_unfold (needle hay : string) :
  str_in needle hay =
  (prefix needle hay ||
   match hay with
   | EmptyString => false
   | String _ r => str_in needle r
   end).
Proof.
  destruct hay as [|c r]; cbn [str_in];
    match goal with |- context [prefix ?a ?b] => destruct (prefix a b) end;
    reflexivity.
Qed.

Lemma str_in_tail (needle : string) (c : ascii) (r : string) :
  str_in needle r = true -> str_in needle (String c r) = true.
Proof.
  intros H. rewrite str_in_unfold, H. apply orb_true_r.
Qed.

Lemma drop_prefix_str_in (needle p : string) :
  forall s r, drop_prefix p s = Some r ->
              str_in needle r = true -> str_in needle s = true.
Proof.
  induction p as [|a p IH]; intros s r Hd Hr.
  - simpl in Hd. destruct s; inversion Hd; subst; exact Hr.
  - destruct s as [|b s]; simpl in Hd; [discriminate|].
    destruct (Ascii.eqb a b); [|discriminate].
    apply str_in_tail. eapply IH; eassumption.
Qed.

Lemma drop_prefix_append (p : string) :
  forall s r, drop_prefix p s = Some r <-> s = (p ++ r)%string.
Proof.
  induction p as [|a p IH]; intros s r; simpl.
  - destruct s; split; intros H; inversion H; reflexivity.
  - destruct s as [|b s].
    + split; discriminate.
    + destruct (Ascii.eqb_spec a b) as [->|Hab].
      * rewrite IH. split; intros H; [subst; reflexivity|].
        inversion H; reflexivity.
      * split; [discriminate|]. intros H; inversion H; congruence.
Qed.

Lemma prefix_dots (needle : string) :
  forall s, prefix needle (dots s) = true -> prefix needle s = true.
Proof.
  induction needle as [|a n IH]; intros s H.
  - destruct s; reflexivity.
  - destruct s as [|c s]; simpl in H; [discriminate|].
    destruct (Ascii.eqb c LF); simpl in H; [discriminate|].
    simpl. destruct (ascii_dec a c); [|discriminate].
    apply IH; exact H.
Qed.

Lemma str_in_dots (needle : string) :
  forall s, str_in needle (dots s) = true -> str_in needle s = true.
Proof.
  induction s as [|c s IH]; intros H.
  - exact H.
  - rewrite str_in_unfold. rewrite str_in_unfold in H.
    apply orb_true_iff in H. apply orb_true_iff.
    destruct H as [H|H].
    + left. apply prefix_dots. exact H.
    + simpl in H. destruct (Ascii.eqb c LF); [discriminate|].
      right. apply IH. exact H.
Qed.

(** A name that the loop appends has the arrow only if its line has. *)
Lemma branch_name_arrow (line : string) :
  str_in "->" line = false -> str_in "->" (branch_name line) = false.
Proof.
  intros H. unfold branch_name, match_origin.
  destruct (drop_prefix "origin/" line) as [rest|] eqn:Hd; [|exact H].
  destruct (is_empty (dots rest)); [exact H|].
  destruct (str_in "->" (dots rest)) eqn:Hin; [|reflexivity].
  rewrite <- H. symmetry.
  eapply drop_prefix_str_in; [exact Hd|]. apply str_in_dots. exact Hin.
Qed.

(** [dots s = s] says that [s] has no line feed. *)
Lemma dots_cons (c : ascii) (s : string) :
  dots (String c s) = String c s -> Ascii.eqb c LF = false /\ dots s = s.
Proof.
  simpl. destruct (Ascii.eqb c LF); [discriminate|].
  intros H; inversion H as [H1]. rewrite H1. split; [reflexivity|exact H1].
Qed.

Lemma dots_snoc (cur : string) (c : ascii) :
  dots cur = cur -> Ascii.eqb c LF = false ->
  dots (cur ++ String c "") = (cur ++ String c "")%string.
Proof.
  intros Hcur Hc. induction cur as [|a cur IH]; simpl.
  - rewrite Hc. reflexivity.
  - apply dots_cons in Hcur as [Ha Hcur]. rewrite Ha, (IH Hcur). reflexivity.
Qed.

Lemma not_linebreak_not_LF (c : ascii) :
  is_linebreak c = false -> Ascii.eqb c LF = false.
Proof.
  intros H. destruct (Ascii.eqb_spec c LF) as [->|]; [|reflexivity].
  discriminate H.
Qed.

Lemma splitlines_go_no_lf (s : string) :
  forall after_cr cur,
    dots cur = cur ->
    Forall (fun line => dots line = line) (splitlines_go after_cr cur s).
Proof.
  induction s as [|c s IH]; intros after_cr cur Hcur; simpl.
  - destruct (is_empty cur); auto.
  - destruct (after_cr && Ascii.eqb c LF); [apply IH; exact Hcur|].
    destruct (is_linebreak c) eqn:Hc.
    + constructor; [exact Hcur|]. apply IH. reflexivity.
    + apply IH. apply dots_snoc; [exact Hcur|].
      apply not_linebreak_not_LF; exact Hc.
Qed.

Lemma dots_lstrip (s : string) : dots s = s -> dots (lstrip s) = lstrip s.
Proof.
  induction s as [|c s IH]; intros H; [reflexivity|].
  cbn [lstrip]. destruct (is_space c); [|exact H].
  apply IH. apply dots_cons in H. apply H.
Qed.

Lemma dots_rstrip (s : string) : dots s = s -> dots (rstrip s) = rstrip s.
Proof.
  induction s as [|c s IH]; intros H; [reflexivity|].
  apply dots_cons in H as [Hc H].
  cbn [rstrip]. destruct (is_space c && is_empty (rstrip s)); [reflexivity|].
  simpl. rewrite Hc, (IH H). reflexivity.
Qed.

Lemma dots_strip (s : string) : dots s = s -> dots (strip s) = strip s.
Proof. intros H. unfold strip. apply dots_rstrip, dots_lstrip, H. Qed.

Lemma dots_drop_prefix (p : string) :
  forall s r, drop_prefix p s = Some r -> dots s = s -> dots r = r.
Proof.
  induction p as [|a p IH]; intros s r Hd Hs.
  - simpl in Hd. destruct s; inversion Hd; subst; exact Hs.
  - destruct s as [|b s]; simpl in Hd; [discriminate|].
    destruct (Ascii.eqb a b); [|discriminate].
    apply dots_cons in Hs. eapply IH; [exact Hd|apply Hs].
Qed.

(** The stripped lines of a listing have no line feed, so the [.+] of the
    pattern runs to the end of the line. *)
Lemma kept_lines_no_lf (output : string) :
  Forall (fun line => dots line = line) (kept_lines output).
Proof.
  unfold kept_lines, splitlines.
  assert (H : Forall (fun line => dots line = line) (splitlines_go false "" output))
    by (apply splitlines_go_no_lf; reflexivity).
  induction H as [|l ls Hl _ IH]; simpl; [constructor|].
  destruct (negb (str_in "->" (strip l))); [|exact IH].
  constructor; [apply dots_strip; exact Hl|exact IH].
Qed.

Lemma branch_name_no_lf (line : string) :
  dots line = line ->
  branch_name line =
  if String.eqb line "origin/" then line else strip_remote_prefix line.
Proof.
  intros Hline. unfold branch_name, match_origin, strip_remote_prefix.
  destruct (drop_prefix "origin/" line) as [rest|] eqn:Hd.
  - rewrite (dots_drop_prefix _ _ _ Hd Hline).
    apply drop_prefix_append in Hd. subst line.
    destruct rest as [|c rest]; reflexivity.
  - destruct (String.eqb_spec line "origin/") as [->|]; [discriminate Hd|].
    reflexivity.
Qed.

Lemma parse_remote_branches_fold (lines : list string) :
  forall branches,
    fold_left
      (fun (branches : list string) (line : string) =>
         let line := strip line in
         if str_in "->" line then branches
         else match match_origin line with
              | Some group1 => branches ++ [group1]
              | None => branches ++ [line]
              end)
      lines branches
    = branches ++
      map branch_name
        (filter (fun line => negb (str_in "->" line)) (map strip lines)).
Proof.
  induction lines as [|l ls IH]; intros branches; simpl.
  - rewrite app_nil_r. reflexivity.
  - rewrite IH. destruct (str_in "->" (strip l)); simpl; [reflexivity|].
    unfold branch_name.
    destruct (match_origin (strip l)); rewrite <- app_assoc; reflexivity.
Qed.

Lemma parse_remote_branches_map (output : string) :
  parse_remote_branches output = map branch_name (kept_lines output).
Proof. unfold parse_remote_branches. apply parse_remote_branches_fold. Qed.

Lemma kept_lines_no_arrow (output : string) :
  Forall (fun line => str_in "->" line = false) (kept_lines output).
Proof.
  unfold kept_lines. apply Forall_forall. intros line Hin.
  apply filter_In in Hin as [_ H]. apply negb_true_iff. exact H.
Qed.

(** ** Facts about the script *)

(** Runs the monad's operations and nothing else. *)
Ltac run :=
  cbv beta iota zeta delta
    [bind ret raise try_except print emit sys_exit set_stdin after written
     write_report];
  cbn [negb fst snd os stdin trace log_file].

Ltac tidy := rewrite <- ?app_assoc, ?app_nil_r; try reflexivity.

Lemma world_eta (w : World) :
  w = mkWorld (os w) (stdin w) (trace w) (log_file w).
Proof. destruct w; reflexivity. Qed.

Lemma bind_ret {A B : Type} (m : M A) (k : A -> M B) w a w' :
  m w = (Ret a, w') -> bind m k w = k a w'.
Proof. intros H. unfold bind. rewrite H. reflexivity. Qed.

Lemma bind_raise {A B : Type} (m : M A) (k : A -> M B) w e w' :
  m w = (Raise e, w') -> bind m k w = (Raise e, w').
Proof. intros H. unfold bind. rewrite H. reflexivity. Qed.

Lemma try_except_ret {A : Type} (body : M A) handler w a w' :
  body w = (Ret a, w') -> try_except body handler w = (Ret a, w').
Proof. intros H. unfold try_except. rewrite H. reflexivity. Qed.

Lemma try_except_caught {A : Type} (body : M A) handler w msg w' :
  body w = (Raise (PyException msg), w') ->
  try_except body handler w = handler msg w'.
Proof. intros H. unfold try_except. rewrite H. reflexivity. Qed.

Lemma run_command_eq (cmd : list string) w r e :
  subprocess_run cmd DEFAULT_CWD DEFAULT_TIMEOUT (os w) = (r, e) ->
  run_command cmd w =
  (run_outcome cmd DEFAULT_TIMEOUT r, after w e (stdin w) [Spawn cmd] []).
Proof.
  intros H. unfold run_command, after. rewrite H, app_nil_r. reflexivity.
Qed.

(** [run_command] raises nothing but an [Exception]. *)
Lemma run_outcome_cases (cmd : list string) (r : proc_result) :
  (exists out, run_outcome cmd DEFAULT_TIMEOUT r = Ret out) \/
  (exists msg, run_outcome cmd DEFAULT_TIMEOUT r = Raise (PyException msg)).
Proof.
  destruct r as [rc out err| |msg]; simpl; eauto.
  destruct (rc =? 0)%Z; eauto.
Qed.

Lemma log_pull_error_eq (branch error_message : string) w r e :
  file_append LOG_FILE (log_entry branch error_message) (os w) = (r, e) ->
  log_pull_error branch error_message w =
  (Ret tt,
   after w e (stdin w)
     (Append LOG_FILE (log_entry branch error_message) :: write_report r)
     (written r (log_entry branch error_message))).
Proof.
  intros H. unfold log_pull_error, try_except, append_log, after.
  rewrite H. destruct r as [ex|]; run; tidy.
Qed.

Lemma is_git_repo_eq w r e :
  subprocess_run ["git"; "rev-parse"; "--is-inside-work-tree"]
    DEFAULT_CWD DEFAULT_TIMEOUT (os w) = (r, e) ->
  is_git_repo w =
  (Ret match r with
       | Exited rc out _ => (rc =? 0)%Z && String.eqb (lower (strip out)) "true"
       | _ => false
       end,
   after w e (stdin w) [Spawn ["git"; "rev-parse"; "--is-inside-work-tree"]] []).
Proof.
  intros H. unfold is_git_repo, try_except, bind.
  rewrite (run_command_eq _ _ _ _ H).
  destruct r as [rc out err| |msg]; simpl; try reflexivity.
  destruct (rc =? 0)%Z; reflexivity.
Qed.

Lemma branch_needs_pull_counted (branch : string) w r e out n :
  subprocess_run (rev_list_count branch) DEFAULT_CWD DEFAULT_TIMEOUT (os w) = (r, e) ->
  run_outcome (rev_list_count branch) DEFAULT_TIMEOUT r = Ret out ->
  py_int out = Some n ->
  branch_needs_pull branch w =
  (Ret (0 <? n)%Z, after w e (stdin w) [Spawn (rev_list_count branch)] []).
Proof.
  intros H Hout Hn. unfold branch_needs_pull, try_except, bind, int.
  rewrite (run_command_eq _ _ _ _ H), Hout, Hn. reflexivity.
Qed.

Lemma branch_needs_pull_failed (branch : string) w r e :
  subprocess_run (rev_list_count branch) DEFAULT_CWD DEFAULT_TIMEOUT (os w) = (r, e) ->
  (exists msg, run_outcome (rev_list_count branch) DEFAULT_TIMEOUT r
               = Raise (PyException msg)) \/
  (exists out, run_outcome (rev_list_count branch) DEFAULT_TIMEOUT r = Ret out /\
               py_int out = None) ->
  exists msg,
    branch_needs_pull branch w =
    (Ret true,
     after w e (stdin w)
       [Spawn (rev_list_count branch);
        Print ("  Could not compare branch '" ++ branch ++ "' with remote: " ++ msg)]
       []).
Proof.
  intros H [[msg Hr]|[out [Hr Hn]]].
  - exists msg. unfold branch_needs_pull, try_except, bind.
    rewrite (run_command_eq _ _ _ _ H), Hr. run; tidy.
  - exists (value_error out). unfold branch_needs_pull, try_except, bind, int.
    rewrite (run_command_eq _ _ _ _ H), Hr, Hn. run; tidy.
Qed.

(** C8. A failed checkout is not fatal: the error is printed, nothing is
    written to the error log, no prompt is shown and no line of the
    standard input is read, and the loop goes on with the next branch. *)
Theorem checkout_failure_skips_branch (branch : string) (rest : list string)
    w r e msg :
  subprocess_run ["git"; "checkout"; branch] DEFAULT_CWD DEFAULT_TIMEOUT (os w)
    = (r, e) ->
  run_outcome ["git"; "checkout"; branch] DEFAULT_TIMEOUT r
    = Raise (PyException msg) ->
  let w' :=
    mkWorld e (stdin w)
      (trace w ++
       [Print (nl ++ "Processing branch '" ++ branch ++ "':");
        Print "Checking out branch...";
        Spawn ["git"; "checkout"; branch];
        Print ("  Error checking out branch '" ++ branch ++ "': " ++ msg)])
      (log_file w) in
  process_branch branch w = (Ret tt, w') /\
  for_each_branch (branch :: rest) w = for_each_branch rest w'.
Proof.
  intros H Hr w'.
  assert (Hp : process_branch branch w = (Ret tt, w')).
  { unfold process_branch. run.
    erewrite run_command_eq by exact H. rewrite Hr. run.
    unfold w'. tidy. }
  split; [exact Hp|].
  cbn [for_each_branch]. unfold bind. rewrite Hp. reflexivity.
Qed.

(** C1. When the checkout of a branch works and the count query ends with
    the output "0", the branch is done without any pull, and the loop goes
    on with the next branch. *)
Theorem zero_count_skips_pull (branch : string) (rest : list string)
    w o1 s1 e1 o2 s2 e2 :
  subprocess_run ["git"; "checkout"; branch] DEFAULT_CWD DEFAULT_TIMEOUT (os w)
    = (Exited 0 o1 s1, e1) ->
  subprocess_run (rev_list_count branch) DEFAULT_CWD DEFAULT_TIMEOUT e1
    = (Exited 0 o2 s2, e2) ->
  strip o2 = "0" ->
  let evs :=
    [Print (nl ++ "Processing branch '" ++ branch ++ "':");
     Print "Checking out branch...";
     Spawn ["git"; "checkout"; branch];
     Spawn (rev_list_count branch);
     Print "  Branch is already up to date. Skipping pull."] in
  let w' := mkWorld e2 (stdin w) (trace w ++ evs) (log_file w) in
  process_branch branch w = (Ret tt, w') /\
  for_each_branch (branch :: rest) w = for_each_branch rest w' /\
  ~ In (Spawn ["git"; "pull"]) evs.
Proof.
  intros H1 H2 H0 evs w'.
  assert (Hp : process_branch branch w = (Ret tt, w')).
  { unfold process_branch. run.
    erewrite run_command_eq by exact H1. cbn [run_outcome Z.eqb]. run.
    erewrite branch_needs_pull_counted with (n := 0%Z);
      [ | exact H2 | cbn [run_outcome Z.eqb]; rewrite H0; reflexivity
        | reflexivity ].
    cbn [Z.ltb Z.compare]. run. unfold w', evs. tidy. }
  split; [exact Hp|]. split.
  - cbn [for_each_branch]. unfold bind. rewrite Hp. reflexivity.
  - unfold evs, rev_list_count. cbn [In].
    intros [H|[H|[H|[H|[H|[]]]]]]; discriminate H.
Qed.

(** *** The trace only grows *)

Lemma grows_ret {A : Type} (a : A) : grows (ret a).
Proof. intros w. exists []. rewrite app_nil_r. reflexivity. Qed.

Lemma grows_raise {A : Type} (e : exn) : grows (@raise A e).
Proof. intros w. exists []. rewrite app_nil_r. reflexivity. Qed.

Lemma grows_emit (ev : event) : grows (emit ev).
Proof. intros w. exists [ev]. reflexivity. Qed.

Lemma grows_set_stdin (inp : list string) : grows (set_stdin inp).
Proof. intros w. exists []. rewrite app_nil_r. reflexivity. Qed.

Lemma grows_bind {A B : Type} (m : M A) (k : A -> M B) :
  grows m -> (forall a, grows (k a)) -> grows (bind m k).
Proof.
  intros Hm Hk w. unfold bind.
  destruct (Hm w) as [t1 H1]. destruct (m w) as [[a|e] w1]; simpl in H1.
  - destruct (Hk a w1) as [t2 H2]. exists (t1 ++ t2).
    rewrite H2, H1, app_assoc. reflexivity.
  - exists t1. exact H1.
Qed.

Lemma grows_try_except {A : Type} (body : M A) (handler : string -> M A) :
  grows body -> (forall msg, grows (handler msg)) ->
  grows (try_except body handler).
Proof.
  intros Hb Hh w. unfold try_except.
  destruct (Hb w) as [t1 H1]. destruct (body w) as [[a|[msg|code]] w1];
    simpl in H1; try (exists t1; exact H1).
  destruct (Hh msg w1) as [t2 H2]. exists (t1 ++ t2).
  rewrite H2, H1, app_assoc. reflexivity.
Qed.

Lemma grows_run_command (cmd : list string) : grows (run_command cmd).
Proof.
  intros w. unfold run_command.
  destruct (subprocess_run cmd DEFAULT_CWD DEFAULT_TIMEOUT (os w)) as [r e].
  exists [Spawn cmd]. reflexivity.
Qed.

Lemma grows_append_log (data : string) : grows (append_log data).
Proof.
  intros w. unfold append_log.
  destruct (file_append LOG_FILE data (os w)) as [[ex|] e];
    exists [Append LOG_FILE data]; reflexivity.
Qed.

Lemma grows_int (s : string) : grows (int s).
Proof.
  unfold int. destruct (py_int s); [apply grows_ret|apply grows_raise].
Qed.

(** Takes a computation apart along its binds, handlers and tests. *)
Ltac grow_step :=
  first
    [ assumption
    | apply grows_ret | apply grows_raise | apply grows_emit
    | apply grows_set_stdin | apply grows_run_command
    | apply grows_append_log | apply grows_int
    | apply grows_bind; [|intro]
    | apply grows_try_except; [|intro]
    | match goal with
      | |- grows (if ?b then _ else _) => destruct b
      | |- grows (match ?x with _ => _ end) => destruct x
      end ].

Ltac grow := repeat grow_step.

Lemma grows_log_pull_error (branch error_message : string) :
  grows (log_pull_error branch error_message).
Proof. unfold log_pull_error, print. grow. Qed.

Lemma grows_retry_loop (branch : string) (inp : list string) :
  grows (retry_loop branch inp).
Proof.
  induction inp as [|answer inp IH]; cbn [retry_loop]; unfold print.
  - grow.
  - pose proof (grows_log_pull_error branch) as Hlog. grow.
Qed.

Lemma grows_pull_branch (branch : string) : grows (pull_branch branch).
Proof.
  unfold pull_branch, print. grow.
  intros w. apply grows_retry_loop.
Qed.

Lemma grows_branch_needs_pull (branch : string) :
  grows (branch_needs_pull branch).
Proof. unfold branch_needs_pull, print. grow. Qed.

Lemma grows_process_branch (branch : string) : grows (process_branch branch).
Proof.
  pose proof (grows_pull_branch branch) as Hpull.
  pose proof (grows_branch_needs_pull branch) as Hneeds.
  unfold process_branch, print. grow.
Qed.

Lemma grows_for_each_branch (branches : list string) :
  grows (for_each_branch branches).
Proof.
  induction branches as [|b bs IH]; cbn [for_each_branch].
  - apply grows_ret.
  - pose proof (grows_process_branch b). grow.
Qed.

Lemma grows_get_remote_branches : grows get_remote_branches.
Proof. unfold get_remote_branches. grow. Qed.

(** The loop begins by showing its prompt. *)
Lemma retry_loop_prompts (branch : string) (inp : list string) w :
  exists evs,
    trace (snd (retry_loop branch inp w)) =
    trace w ++ Prompt (retry_prompt branch) :: evs.
Proof.
  destruct (grows_retry_loop branch inp w) as [t Ht].
  assert (H : exists k : unit -> M unit,
             (forall u, grows (k u)) /\
             retry_loop branch inp = bind (emit (Prompt (retry_prompt branch))) k).
  { destruct inp as [|answer inp]; cbn [retry_loop]; eexists; split;
      try reflexivity; intros u; unfold print.
    - grow.
    - pose proof (grows_log_pull_error branch) as Hlog.
      pose proof (grows_retry_loop branch inp) as Hloop.
      grow. }
  destruct H as [k [Hk ->]]. unfold bind, emit.
  destruct (Hk tt (mkWorld (os w) (stdin w)
                     (trace w ++ [Prompt (retry_prompt branch)]) (log_file w)))
    as [t2 H2].
  exists t2. rewrite H2. cbn [trace]. rewrite <- app_assoc. reflexivity.
Qed.

(** [pull_branch] begins with the pull. *)
Lemma pull_branch_pulls (branch : string) w :
  exists evs,
    trace (snd (pull_branch branch w)) =
    trace w ++ [Print "  Pulling latest changes..."; Spawn ["git"; "pull"]] ++ evs.
Proof.
  unfold pull_branch. run.
  match goal with |- context [run_command ?c ?x] =>
    destruct (subprocess_run c DEFAULT_CWD DEFAULT_TIMEOUT (os x)) as [r e] eqn:Hrun;
    rewrite (run_command_eq c x r e Hrun)
  end.
  destruct (run_outcome_cases ["git"; "pull"] r) as [[out ->]|[msg ->]]; run.
  - exists []. tidy.
  - match goal with |- context [log_pull_error ?b ?m ?x] =>
      destruct (file_append LOG_FILE (log_entry b m) (os x)) as [fa e2] eqn:Hfa;
      rewrite (log_pull_error_eq b m x fa e2 Hfa)
    end. run.
    match goal with |- context [retry_loop ?b ?i ?x] =>
      destruct (grows_retry_loop b i x) as [t Ht]; rewrite Ht
    end.
    cbn [trace]. eexists. rewrite <- !app_assoc. cbn [app]. reflexivity.
Qed.

(** *** The claims about the loop over the branches *)

(** C2. When the count query of a checked-out branch fails (the command
    ends in an error or at the timeout, or its output is no integer),
    [branch_needs_pull] returns [True] and raises nothing, and the next
    thing the driver does for the branch is a pull. *)
Theorem comparison_failure_fails_open (branch : string) w o1 s1 e1 r e2 :
  subprocess_run ["git"; "checkout"; branch] DEFAULT_CWD DEFAULT_TIMEOUT (os w)
    = (Exited 0 o1 s1, e1) ->
  subprocess_run (rev_list_count branch) DEFAULT_CWD DEFAULT_TIMEOUT e1
    = (r, e2) ->
  (exists msg, run_outcome (rev_list_count branch) DEFAULT_TIMEOUT r
               = Raise (PyException msg)) \/
  (exists out, run_outcome (rev_list_count branch) DEFAULT_TIMEOUT r = Ret out /\
               py_int out = None) ->
  let w1 :=
    mkWorld e1 (stdin w)
      (trace w ++
       [Print (nl ++ "Processing branch '" ++ branch ++ "':");
        Print "Checking out branch...";
        Spawn ["git"; "checkout"; branch]])
      (log_file w) in
  fst (branch_needs_pull branch w1) = Ret true /\
  exists msg evs,
    trace (snd (process_branch branch w)) =
    trace w ++
    [Print (nl ++ "Processing branch '" ++ branch ++ "':");
     Print "Checking out branch...";
     Spawn ["git"; "checkout"; branch];
     Spawn (rev_list_count branch);
     Print ("  Could not compare branch '" ++ branch ++ "' with remote: " ++ msg);
     Print "  Pulling latest changes...";
     Spawn ["git"; "pull"]] ++ evs.
Proof.
  intros H1 H2 Hfail w1. split.
  - destruct (branch_needs_pull_failed branch w1 r e2 H2 Hfail) as [msg ->].
    reflexivity.
  - unfold process_branch. run.
    erewrite run_command_eq by exact H1. cbn [run_outcome Z.eqb]. run.
    match goal with |- context [branch_needs_pull branch ?x] =>
      destruct (branch_needs_pull_failed branch x r e2 H2 Hfail) as [msg ->]
    end. run.
    match goal with |- context [pull_branch branch ?x] =>
      destruct (pull_branch_pulls branch x) as [evs ->]
    end.
    exists msg, evs. cbn [trace]. rewrite <- !app_assoc. reflexivity.
Qed.

(** C5, as amended.  When the pull of a branch fails and the operator then
    answers "n", the branch is done: there has been one pull and no other,
    and one write to the error log, of the entry of the first failure; the
    log holds that entry when the write has worked, and nothing new when
    the write itself has failed (which is only printed). *)
Theorem skip_after_failed_pull (branch : string) w r e1 msg fa e2 answer rest :
  subprocess_run ["git"; "pull"] DEFAULT_CWD DEFAULT_TIMEOUT (os w) = (r, e1) ->
  run_outcome ["git"; "pull"] DEFAULT_TIMEOUT r = Raise (PyException msg) ->
  file_append LOG_FILE (log_entry branch msg) e1 = (fa, e2) ->
  stdin w = answer :: rest ->
  lower (strip answer) = "n" ->
  pull_branch branch w =
  (Ret tt,
   mkWorld e2 rest
     (trace w ++
      [Print "  Pulling latest changes...";
       Spawn ["git"; "pull"];
       Print ("  Error pulling branch '" ++ branch ++ "': " ++ msg);
       Append LOG_FILE (log_entry branch msg)]
      ++ write_report fa
      ++ [Prompt (retry_prompt branch);
          Print ("  Skipping pull for branch '" ++ branch ++ "'.")])
     (log_file w ++ written fa (log_entry branch msg))).
Proof.
  intros Hrun Hr Hfa Hin Hn. unfold pull_branch. run.
  erewrite run_command_eq by exact Hrun. rewrite Hr. run.
  erewrite log_pull_error_eq by exact Hfa. run.
  rewrite Hin. cbn [retry_loop]. run. rewrite Hn.
  cbn [String.eqb Ascii.eqb Bool.eqb]. run.
  destruct fa as [ex|]; cbn [write_report written app];
    rewrite <- ?app_assoc, ?app_nil_r; reflexivity.
Qed.

(** C6, as amended.  When the pull of a branch fails, the operator answers
    "y" and the second pull fails too, two entries have been written for
    the branch, each of the form [Pull error on branch '<branch>':
    <message>], the second with [Retry: ] before its message; each is in
    the log when its write has worked; and the prompt is shown again. *)
Theorem retry_failure_logged_and_prompted (branch : string)
    w r1 e1 msg1 fa1 e2 answer rest r2 e3 msg2 fa2 e4 :
  subprocess_run ["git"; "pull"] DEFAULT_CWD DEFAULT_TIMEOUT (os w) = (r1, e1) ->
  run_outcome ["git"; "pull"] DEFAULT_TIMEOUT r1 = Raise (PyException msg1) ->
  file_append LOG_FILE (log_entry branch msg1) e1 = (fa1, e2) ->
  stdin w = answer :: rest ->
  lower (strip answer) = "y" ->
  subprocess_run ["git"; "pull"] DEFAULT_CWD DEFAULT_TIMEOUT e2 = (r2, e3) ->
  run_outcome ["git"; "pull"] DEFAULT_TIMEOUT r2 = Raise (PyException msg2) ->
  file_append LOG_FILE (log_entry branch ("Retry: " ++ msg2)) e3 = (fa2, e4) ->
  let entry1 := ("Pull error on branch '" ++ branch ++ "': " ++ msg1 ++ nl)%string in
  let entry2 :=
    ("Pull error on branch '" ++ branch ++ "': Retry: " ++ msg2 ++ nl)%string in
  let w' :=
    mkWorld e4 rest
      (trace w ++
       [Print "  Pulling latest changes...";
        Spawn ["git"; "pull"];
        Print ("  Error pulling branch '" ++ branch ++ "': " ++ msg1);
        Append LOG_FILE entry1]
       ++ write_report fa1
       ++ [Prompt (retry_prompt branch);
           Print "  Retrying pull...";
           Spawn ["git"; "pull"];
           Print ("  Retry failed: " ++ msg2);
           Append LOG_FILE entry2]
       ++ write_report fa2)
      (log_file w ++ written fa1 entry1 ++ written fa2 entry2) in
  pull_branch branch w = retry_loop branch rest w' /\
  exists evs,
    trace (snd (pull_branch branch w)) =
    trace w' ++ Prompt (retry_prompt branch) :: evs.
Proof.
  intros Hrun1 Hr1 Hfa1 Hin Hy Hrun2 Hr2 Hfa2 entry1 entry2 w'.
  assert (Heq : pull_branch branch w = retry_loop branch rest w').
  { unfold pull_branch. run.
    erewrite run_command_eq by exact Hrun1. rewrite Hr1. run.
    erewrite log_pull_error_eq by exact Hfa1. run.
    rewrite Hin. cbn [retry_loop]. run. rewrite Hy.
    cbn [String.eqb Ascii.eqb Bool.eqb]. run.
    erewrite run_command_eq by exact Hrun2. rewrite Hr2. run.
    erewrite log_pull_error_eq by exact Hfa2. run.
    f_equal. unfold w', entry1, entry2.
    destruct fa1 as [ex1|]; destruct fa2 as [ex2|];
      cbn [write_report written app];
      rewrite <- ?app_assoc, ?app_nil_r; reflexivity. }
  split; [exact Heq|]. rewrite Heq. apply retry_loop_prompts.
Qed.

(** C10. [log_pull_error] always returns: when the append to the log file
    fails, the exception is printed and goes no further, the log and the
    standard input are as before, and whatever comes after the call
    runs. *)
Theorem log_pull_error_returns (branch error_message : string) w r e :
  file_append LOG_FILE (log_entry branch error_message) (os w) = (r, e) ->
  let w' :=
    mkWorld e (stdin w)
      (trace w ++ Append LOG_FILE (log_entry branch error_message) :: write_report r)
      (log_file w ++ written r (log_entry branch error_message)) in
  log_pull_error branch error_message w = (Ret tt, w') /\
  (forall ex, r = Some ex ->
     trace w' =
     trace w ++ [Append LOG_FILE (log_entry branch error_message);
                 Print ("Error logging pull error: " ++ ex)] /\
     log_file w' = log_file w) /\
  (forall (A : Type) (k : unit -> M A),
     bind (log_pull_error branch error_message) k w = k tt w').
Proof.
  intros H w'.
  assert (Heq : log_pull_error branch error_message w = (Ret tt, w'))
    by (apply log_pull_error_eq; exact H).
  split; [exact Heq|]. split.
  - intros ex ->. unfold w'. cbn [trace log_file written write_report].
    rewrite app_nil_r. split; reflexivity.
  - intros A k. unfold bind. rewrite Heq. reflexivity.
Qed.

(** *** The claims about the repository check *)

(** C7. When the repository check says no, the program ends with the exit
    status 1, having run the check and printed one message: no fetch is
    ever started. *)
Theorem not_a_repository_exits_1 w :
  fst (is_git_repo w) = Ret false ->
  let evs :=
    [Spawn ["git"; "rev-parse"; "--is-inside-work-tree"];
     Print "Error: This directory is not a Git repository."] in
  fst (main w) = Raise (SystemExit 1) /\
  exit_status (fst (main w)) = 1%Z /\
  trace (snd (main w)) = trace w ++ evs /\
  ~ In (Spawn ["git"; "fetch"; "--all"]) evs.
Proof.
  intros H evs.
  destruct (subprocess_run ["git"; "rev-parse"; "--is-inside-work-tree"]
              DEFAULT_CWD DEFAULT_TIMEOUT (os w)) as [r e] eqn:Hrun.
  rewrite (is_git_repo_eq _ _ _ Hrun) in H. cbn [fst] in H.
  injection H as Hb.
  assert (Hm : main w =
               (Raise (SystemExit 1),
                mkWorld e (stdin w) (trace w ++ evs) (log_file w))).
  { unfold main. unfold bind at 1.
    rewrite (is_git_repo_eq _ _ _ Hrun), Hb. cbn [negb]. run.
    unfold evs. tidy. }
  rewrite Hm. cbn [fst snd trace exit_status]. repeat split.
  unfold evs. cbn [In]. intros [Hin|[Hin|[]]]; discriminate Hin.
Qed.

(** C9, as amended.  The repository check passes exactly when the query
    ends with the return code 0 and its output, without the white space
    around it and in lower case, is "true"; in every other case it says
    no.  When it passes, the run goes on to the fetch. *)
Theorem repo_check_passes_iff w r e :
  subprocess_run ["git"; "rev-parse"; "--is-inside-work-tree"]
    DEFAULT_CWD DEFAULT_TIMEOUT (os w) = (r, e) ->
  (fst (is_git_repo w) = Ret true <->
   exists out err, r = Exited 0 out err /\ lower (strip out) = "true") /\
  (fst (is_git_repo w) <> Ret true -> fst (is_git_repo w) = Ret false) /\
  (fst (is_git_repo w) = Ret true ->
   exists evs,
     trace (snd (main w)) =
     trace w ++
     [Spawn ["git"; "rev-parse"; "--is-inside-work-tree"];
      Print "Fetching all remote branches...";
      Spawn ["git"; "fetch"; "--all"]] ++ evs).
Proof.
  intros Hrun. pose proof (is_git_repo_eq _ _ _ Hrun) as Heq.
  split; [|split].
  - rewrite Heq. cbn [fst]. split.
    + intros H. injection H as Hb.
      destruct r as [rc out err| |msg]; try discriminate Hb.
      apply andb_true_iff in Hb as [Hrc Hout].
      apply Z.eqb_eq in Hrc. apply String.eqb_eq in Hout.
      subst rc. exists out, err. split; [reflexivity|exact Hout].
    + intros [out [err [-> Hout]]]. rewrite Hout. reflexivity.
  - rewrite Heq. cbn [fst].
    match goal with |- Ret ?b <> _ -> _ => destruct b end;
      [intros H; exfalso; apply H; reflexivity|reflexivity].
  - rewrite Heq at 1. cbn [fst]. intros H. injection H as Hb.
    unfold main. unfold bind at 1. rewrite Heq, Hb. cbn [negb].
    unfold bind at 1, ret at 1. cbv beta iota.
    unfold bind at 1, print at 1, emit at 1. cbv beta iota.
    unfold bind at 1, try_except at 1, bind at 1.
    destruct (subprocess_run ["git"; "fetch"; "--all"]
                DEFAULT_CWD DEFAULT_TIMEOUT e) as [r2 e2] eqn:Hfetch.
    erewrite run_command_eq by (unfold after; cbn [os]; exact Hfetch).
    destruct (run_outcome_cases ["git"; "fetch"; "--all"] r2)
      as [[out ->]|[msg ->]].
    + unfold ret at 1. cbv beta iota.
      match goal with |- context [snd (?m ?x)] =>
        assert (Hg : grows m);
        [ unfold sys_exit, print;
          repeat first [ apply grows_get_remote_branches
                       | apply grows_for_each_branch
                       | grow_step ]
        | destruct (Hg x) as [evs Hevs]; exists evs; rewrite Hevs ]
      end.
      unfold after. cbn [trace]. rewrite <- !app_assoc. reflexivity.
    + run. exists [Print "Failed to fetch remote branches. Exiting."].
      rewrite <- !app_assoc. reflexivity.
Qed.

(** *** The claims about the listing of the remote branches *)

(** C3. No name in the list that the enumeration returns has the arrow
    "->": the names are those of the stripped lines without an arrow, in
    their order, so a line with an arrow gives no name at all. *)
Theorem symbolic_refs_discarded w branches w' :
  get_remote_branches w = (Ret branches, w') ->
  Forall (fun name => str_in "->" name = false) branches /\
  exists r e output,
    subprocess_run ["git"; "branch"; "-r"] DEFAULT_CWD DEFAULT_TIMEOUT (os w)
      = (r, e) /\
    run_outcome ["git"; "branch"; "-r"] DEFAULT_TIMEOUT r = Ret output /\
    branches = map branch_name (kept_lines output) /\
    Forall (fun line => str_in "->" line = false) (kept_lines output).
Proof.
  intros H. unfold get_remote_branches, bind in H.
  destruct (subprocess_run ["git"; "branch"; "-r"] DEFAULT_CWD DEFAULT_TIMEOUT
              (os w)) as [r e] eqn:Hrun.
  rewrite (run_command_eq _ _ _ _ Hrun) in H.
  destruct (run_outcome ["git"; "branch"; "-r"] DEFAULT_TIMEOUT r)
    as [output|ex] eqn:Hout; [|discriminate H].
  unfold ret in H. injection H as Hb _.
  rewrite parse_remote_branches_map in Hb. subst branches.
  pose proof (kept_lines_no_arrow output) as Hkept. split.
  - induction Hkept as [|line ls Hline _ IH]; cbn [map]; constructor.
    + apply branch_name_arrow. exact Hline.
    + exact IH.
  - exists r, e, output. repeat split; assumption.
Qed.

(** C4, as amended.  For every line of the listing that is no symbolic
    reference, stripped of the white space around it, the enumeration takes
    one leading "origin/" off when something follows it, and gives the line
    as it is when it does not start with "origin/" or is "origin/" and
    nothing more. *)
Theorem origin_prefix_stripped (output : string) :
  parse_remote_branches output =
  map (fun line =>
         if String.eqb line "origin/" then line else strip_remote_prefix line)
      (kept_lines output).
Proof.
  rewrite parse_remote_branches_map.
  pose proof (kept_lines_no_lf output) as H.
  induction H as [|line ls Hline _ IH]; cbn [map]; [reflexivity|].
  rewrite IH, (branch_name_no_lf line Hline). reflexivity.
Qed.

(** ** More of the script *)

(** *** What follows what *)

Lemma count_app (p : event -> bool) (a b : list event) :
  count p (a ++ b) = count p a + count p b.
Proof. unfold count. rewrite filter_app, length_app. reflexivity. Qed.

Lemma follows_refl w : follows w w.
Proof.
  exists [], [], []. rewrite !app_nil_r. cbn.
  repeat split; try constructor.
Qed.

Lemma follows_trans w1 w2 w3 :
  follows w1 w2 -> follows w2 w3 -> follows w1 w3.
Proof.
  intros (evs1 & new1 & used1 & Ht1 & Ha1 & Hl1 & Hn1 & Hs1 & Hu1 & Hc1)
         (evs2 & new2 & used2 & Ht2 & Ha2 & Hl2 & Hn2 & Hs2 & Hu2 & Hc2).
  exists (evs1 ++ evs2), (new1 ++ new2), (used1 ++ used2).
  rewrite Ht2, Ht1, Hl2, Hl1, Hs1, Hs2, !app_assoc, !count_app, length_app.
  repeat split; try lia.
  - apply Forall_app. split; assumption.
  - apply Forall_app. split.
    + eapply Forall_impl; [|exact Hn1]. cbv beta. intros d Hd.
      apply in_or_app. left. exact Hd.
    + eapply Forall_impl; [|exact Hn2]. cbv beta. intros d Hd.
      apply in_or_app. right. exact Hd.
Qed.

(** A step that is given by its events, its log entries and the lines it
    has read. *)
Lemma follows_step w e inp (evs : list event) (new used : list string) :
  Forall allowed evs ->
  Forall (fun data => In (Append LOG_FILE data) evs) new ->
  stdin w = used ++ inp ->
  length used <= count is_prompt evs ->
  count is_append evs <= count is_pull evs ->
  follows w (mkWorld e inp (trace w ++ evs) (log_file w ++ new)).
Proof.
  intros Ha Hn Hs Hu Hc. exists evs, new, used. cbn [trace log_file stdin].
  repeat split; assumption.
Qed.

Lemma safe_ret {A : Type} (a : A) : safe (ret a).
Proof. intros w. apply follows_refl. Qed.

Lemma safe_raise {A : Type} (e : exn) : safe (@raise A e).
Proof. intros w. apply follows_refl. Qed.

Lemma safe_print (text : string) : safe (print text).
Proof.
  intros w. unfold print, emit. cbn [snd].
  rewrite <- (app_nil_r (log_file w)).
  apply follows_step with (used := []); cbn; repeat constructor.
Qed.

Lemma safe_bind {A B : Type} (m : M A) (k : A -> M B) :
  safe m -> (forall a, safe (k a)) -> safe (bind m k).
Proof.
  intros Hm Hk w. unfold bind. pose proof (Hm w) as H1.
  destruct (m w) as [[a|e] w1]; cbn [snd] in H1; [|exact H1].
  eapply follows_trans; [exact H1|apply Hk].
Qed.

Lemma safe_try_except {A : Type} (body : M A) (handler : string -> M A) :
  safe body -> (forall msg, safe (handler msg)) -> safe (try_except body handler).
Proof.
  intros Hb Hh w. unfold try_except. pose proof (Hb w) as H1.
  destruct (body w) as [[a|[msg|code]] w1]; cbn [snd] in H1; try exact H1.
  eapply follows_trans; [exact H1|apply Hh].
Qed.

Lemma safe_run_command (cmd : list string) :
  git_command cmd -> safe (run_command cmd).
Proof.
  intros Hcmd w. unfold run_command.
  destruct (subprocess_run cmd DEFAULT_CWD DEFAULT_TIMEOUT (os w)) as [r e].
  cbn [snd]. rewrite <- (app_nil_r (log_file w)).
  apply follows_step with (used := []).
  - constructor; [exact Hcmd|constructor].
  - constructor.
  - reflexivity.
  - cbn. lia.
  - unfold count. cbn [filter is_append length]. lia.
Qed.

Lemma safe_int (s : string) : safe (int s).
Proof. unfold int. destruct (py_int s); [apply safe_ret|apply safe_raise]. Qed.

(** Closes the conditions of a step whose events are given. *)
Ltac allow :=
  repeat first
    [ apply Forall_nil
    | apply Forall_cons;
      [ cbn [allowed];
        first [ exact I
              | do 3 right; left; reflexivity
              | split; [reflexivity|eauto] ]
      | ] ].

Ltac logged :=
  repeat first
    [ apply Forall_nil
    | apply Forall_cons;
      [ cbn [In]; repeat first [left; reflexivity | right] | ] ].

Ltac given evs new used :=
  exists evs, new, used; cbn [trace log_file stdin snd];
  rewrite <- ?app_assoc, ?app_nil_r;
  split; [reflexivity|];
  split; [allow|];
  split; [reflexivity|];
  split; [logged|];
  split; [try reflexivity; try assumption|];
  split; vm_compute; lia.

Lemma retry_loop_follows (branch : string) (inp : list string) :
  forall w, stdin w = inp -> follows w (snd (retry_loop branch inp w)).
Proof.
  induction inp as [|answer inp IH]; intros w Hin; cbn [retry_loop]; run.
  - given [Prompt (retry_prompt branch)] (@nil string) (@nil string).
  - destruct (String.eqb (lower (strip answer)) "y").
    + run.
      destruct (subprocess_run ["git"; "pull"] DEFAULT_CWD DEFAULT_TIMEOUT (os w))
        as [r e1] eqn:Hrun.
      erewrite run_command_eq by exact Hrun.
      destruct (run_outcome_cases ["git"; "pull"] r) as [[out ->]|[msg ->]]; run.
      * given [Prompt (retry_prompt branch); Print "  Retrying pull...";
               Spawn ["git"; "pull"]; Print "  Pull succeeded."]
              (@nil string) [answer].
      * destruct (file_append LOG_FILE (log_entry branch ("Retry: " ++ msg)) e1)
          as [r2 e2] eqn:Hfa.
        erewrite log_pull_error_eq by exact Hfa. run.
        eapply follows_trans; [|apply IH; reflexivity].
        destruct r2 as [ex|]; cbn [write_report written].
        -- given [Prompt (retry_prompt branch); Print "  Retrying pull...";
                  Spawn ["git"; "pull"]; Print ("  Retry failed: " ++ msg);
                  Append LOG_FILE (log_entry branch ("Retry: " ++ msg));
                  Print ("Error logging pull error: " ++ ex)]
                 (@nil string) [answer].
        -- given [Prompt (retry_prompt branch); Print "  Retrying pull...";
                  Spawn ["git"; "pull"]; Print ("  Retry failed: " ++ msg);
                  Append LOG_FILE (log_entry branch ("Retry: " ++ msg))]
                 [log_entry branch ("Retry: " ++ msg)] [answer].
    + destruct (String.eqb (lower (strip answer)) "n"); run.
      * given [Prompt (retry_prompt branch);
               Print ("  Skipping pull for branch '" ++ branch ++ "'.")]
              (@nil string) [answer].
      * eapply follows_trans; [|apply IH; reflexivity].
        given [Prompt (retry_prompt branch);
               Print "  Please enter 'y' (yes) or 'n' (no)."]
              (@nil string) [answer].
Qed.

Lemma safe_pull_branch (branch : string) : safe (pull_branch branch).
Proof.
  intros w. unfold pull_branch. run.
  destruct (subprocess_run ["git"; "pull"] DEFAULT_CWD DEFAULT_TIMEOUT (os w))
    as [r e1] eqn:Hrun.
  erewrite run_command_eq by exact Hrun.
  destruct (run_outcome_cases ["git"; "pull"] r) as [[out ->]|[msg ->]]; run.
  - given [Print "  Pulling latest changes..."; Spawn ["git"; "pull"]]
          (@nil string) (@nil string).
  - destruct (file_append LOG_FILE (log_entry branch msg) e1) as [r2 e2] eqn:Hfa.
    erewrite log_pull_error_eq by exact Hfa. run.
    eapply follows_trans; [|apply retry_loop_follows; reflexivity].
    destruct r2 as [ex|]; cbn [write_report written].
    + given [Print "  Pulling latest changes..."; Spawn ["git"; "pull"];
             Print ("  Error pulling branch '" ++ branch ++ "': " ++ msg);
             Append LOG_FILE (log_entry branch msg);
             Print ("Error logging pull error: " ++ ex)]
            (@nil string) (@nil string).
    + given [Print "  Pulling latest changes..."; Spawn ["git"; "pull"];
             Print ("  Error pulling branch '" ++ branch ++ "': " ++ msg);
             Append LOG_FILE (log_entry branch msg)]
            [log_entry branch msg] (@nil string).
Qed.

Ltac safety :=
  repeat first
    [ assumption
    | apply safe_ret | apply safe_raise | apply safe_print | apply safe_int
    | apply safe_pull_branch
    | apply safe_run_command; unfold git_command; eauto 10
    | apply safe_bind; [|intro]
    | apply safe_try_except; [|intro]
    | match goal with
      | |- safe (if ?b then _ else _) => destruct b
      | |- safe (match ?x with _ => _ end) => destruct x
      end ].

Lemma safe_process_branch (branch : string) : safe (process_branch branch).
Proof. unfold process_branch, branch_needs_pull. safety. Qed.

Lemma safe_for_each_branch (branches : list string) :
  safe (for_each_branch branches).
Proof.
  induction branches as [|b bs IH]; cbn [for_each_branch].
  - apply safe_ret.
  - pose proof (safe_process_branch b). safety.
Qed.

Lemma safe_main : safe main.
Proof.
  pose proof safe_for_each_branch as Hloop.
  unfold main, is_git_repo, get_remote_branches, sys_exit.
  repeat first [apply Hloop | progress safety].
Qed.

(** *** [run_command] *)

Lemma lstrip_head (s : string) :
  lstrip s = "" \/ exists c r, lstrip s = String c r /\ is_space c = false.
Proof.
  induction s as [|c s IH]; [left; reflexivity|].
  cbn [lstrip]. destruct (is_space c) eqn:Hc; [exact IH|].
  right. exists c, s. split; [reflexivity|exact Hc].
Qed.

Lemma rstrip_idem (s : string) : rstrip (rstrip s) = rstrip s.
Proof.
  induction s as [|c s IH]; [reflexivity|].
  cbn [rstrip]. destruct (is_space c && is_empty (rstrip s)) eqn:Hc.
  - reflexivity.
  - cbn [rstrip]. rewrite IH, Hc. reflexivity.
Qed.

Lemma strip_idem (s : string) : strip (strip s) = strip s.
Proof.
  unfold strip.
  assert (H : lstrip (rstrip (lstrip s)) = rstrip (lstrip s)).
  { destruct (lstrip_head s) as [->|(c & r & -> & Hc)]; [reflexivity|].
    cbn [rstrip]. rewrite Hc. cbn [andb lstrip]. rewrite Hc. reflexivity. }
  rewrite H. apply rstrip_idem.
Qed.

(** X1. [run_command] starts one process and touches neither the standard
    input nor the log; what it returns has no white space at its ends, and
    what it raises is an [Exception], never an exit. *)
Theorem run_command_effect (cmd : list string) w :
  exists r e,
    subprocess_run cmd DEFAULT_CWD DEFAULT_TIMEOUT (os w) = (r, e) /\
    snd (run_command cmd w)
    = mkWorld e (stdin w) (trace w ++ [Spawn cmd]) (log_file w) /\
    ((exists out, fst (run_command cmd w) = Ret out /\ strip out = out) \/
     (exists msg, fst (run_command cmd w) = Raise (PyException msg))).
Proof.
  destruct (subprocess_run cmd DEFAULT_CWD DEFAULT_TIMEOUT (os w)) as [r e] eqn:H.
  exists r, e. split; [reflexivity|].
  rewrite (run_command_eq _ _ _ _ H). unfold after. cbn [fst snd].
  rewrite app_nil_r. split; [reflexivity|].
  destruct r as [rc out err| |msg]; cbn [run_outcome]; eauto.
  destruct (rc =? 0)%Z; eauto.
  left. exists (strip out). split; [reflexivity|apply strip_idem].
Qed.

(** *** The start of [main] *)

(** Takes [main] past a repository check that says yes. *)
Ltac enter_main Hcheck Htrue :=
  unfold main; unfold bind at 1;
  rewrite (is_git_repo_eq _ _ _ Hcheck); cbv beta iota;
  cbn [Z.eqb andb]; rewrite Htrue;
  cbn [String.eqb Ascii.eqb Bool.eqb negb];
  unfold bind at 1, ret at 1; cbv beta iota;
  unfold bind at 1, print at 1, emit at 1; cbv beta iota;
  unfold after; cbn [os stdin trace log_file].

(** X2. When the fetch fails, the program says so and ends with the exit
    status 1: no branch is listed, checked out or pulled, and nothing is
    written to the log. *)
Theorem fetch_failure_exits_1 w o1 s1 e1 r2 e2 msg :
  subprocess_run ["git"; "rev-parse"; "--is-inside-work-tree"]
    DEFAULT_CWD DEFAULT_TIMEOUT (os w) = (Exited 0 o1 s1, e1) ->
  lower (strip o1) = "true" ->
  subprocess_run ["git"; "fetch"; "--all"] DEFAULT_CWD DEFAULT_TIMEOUT e1
    = (r2, e2) ->
  run_outcome ["git"; "fetch"; "--all"] DEFAULT_TIMEOUT r2
    = Raise (PyException msg) ->
  main w =
  (Raise (SystemExit 1),
   mkWorld e2 (stdin w)
     (trace w ++
      [Spawn ["git"; "rev-parse"; "--is-inside-work-tree"];
       Print "Fetching all remote branches...";
       Spawn ["git"; "fetch"; "--all"];
       Print "Failed to fetch remote branches. Exiting."])
     (log_file w)) /\
  exit_status (fst (main w)) = 1%Z.
Proof.
  intros Hcheck Htrue Hfetch Hr.
  assert (Hm : main w =
    (Raise (SystemExit 1),
     mkWorld e2 (stdin w)
       (trace w ++
        [Spawn ["git"; "rev-parse"; "--is-inside-work-tree"];
         Print "Fetching all remote branches...";
         Spawn ["git"; "fetch"; "--all"];
         Print "Failed to fetch remote branches. Exiting."])
       (log_file w))).
  { enter_main Hcheck Htrue.
    unfold bind at 1, try_except at 1, bind at 1.
    erewrite run_command_eq by exact Hfetch. rewrite Hr. run. tidy. }
  rewrite Hm. split; reflexivity.
Qed.

(** X3. When the listing of the remote branches fails, the program says so
    and ends with the exit status 1, with no branch checked out or
    pulled. *)
Theorem enumeration_failure_exits_1 w o1 s1 e1 o2 s2 e2 r3 e3 msg :
  subprocess_run ["git"; "rev-parse"; "--is-inside-work-tree"]
    DEFAULT_CWD DEFAULT_TIMEOUT (os w) = (Exited 0 o1 s1, e1) ->
  lower (strip o1) = "true" ->
  subprocess_run ["git"; "fetch"; "--all"] DEFAULT_CWD DEFAULT_TIMEOUT e1
    = (Exited 0 o2 s2, e2) ->
  subprocess_run ["git"; "branch"; "-r"] DEFAULT_CWD DEFAULT_TIMEOUT e2
    = (r3, e3) ->
  run_outcome ["git"; "branch"; "-r"] DEFAULT_TIMEOUT r3
    = Raise (PyException msg) ->
  main w =
  (Raise (SystemExit 1),
   mkWorld e3 (stdin w)
     (trace w ++
      [Spawn ["git"; "rev-parse"; "--is-inside-work-tree"];
       Print "Fetching all remote branches...";
       Spawn ["git"; "fetch"; "--all"];
       Spawn ["git"; "branch"; "-r"];
       Print "Failed to retrieve remote branches."])
     (log_file w)) /\
  exit_status (fst (main w)) = 1%Z.
Proof.
  intros Hcheck Htrue Hfetch Hlist Hr.
  assert (Hm : main w =
    (Raise (SystemExit 1),
     mkWorld e3 (stdin w)
       (trace w ++
        [Spawn ["git"; "rev-parse"; "--is-inside-work-tree"];
         Print "Fetching all remote branches...";
         Spawn ["git"; "fetch"; "--all"];
         Spawn ["git"; "branch"; "-r"];
         Print "Failed to retrieve remote branches."])
       (log_file w))).
  { enter_main Hcheck Htrue.
    unfold bind at 1, try_except at 1, bind at 1.
    erewrite run_command_eq by exact Hfetch.
    cbn [run_outcome Z.eqb]. unfold ret at 1. cbv beta iota.
    unfold bind at 1, try_except at 1, bind at 1, get_remote_branches, bind at 1.
    unfold after. cbn [os stdin trace log_file].
    erewrite run_command_eq by exact Hlist. rewrite Hr. run. tidy. }
  rewrite Hm. split; reflexivity.
Qed.

(** X4. When the listing has no branch to give (it is empty, or all its
    lines are symbolic references), the program says so and ends with the
    exit status 0, with no branch checked out or pulled. *)
Theorem empty_listing_exits_0 w o1 s1 e1 o2 s2 e2 o3 s3 e3 :
  subprocess_run ["git"; "rev-parse"; "--is-inside-work-tree"]
    DEFAULT_CWD DEFAULT_TIMEOUT (os w) = (Exited 0 o1 s1, e1) ->
  lower (strip o1) = "true" ->
  subprocess_run ["git"; "fetch"; "--all"] DEFAULT_CWD DEFAULT_TIMEOUT e1
    = (Exited 0 o2 s2, e2) ->
  subprocess_run ["git"; "branch"; "-r"] DEFAULT_CWD DEFAULT_TIMEOUT e2
    = (Exited 0 o3 s3, e3) ->
  kept_lines (strip o3) = [] ->
  main w =
  (Raise (SystemExit 0),
   mkWorld e3 (stdin w)
     (trace w ++
      [Spawn ["git"; "rev-parse"; "--is-inside-work-tree"];
       Print "Fetching all remote branches...";
       Spawn ["git"; "fetch"; "--all"];
       Spawn ["git"; "branch"; "-r"];
       Print "No remote branches found."])
     (log_file w)) /\
  exit_status (fst (main w)) = 0%Z.
Proof.
  intros Hcheck Htrue Hfetch Hlist Hnone.
  assert (Hm : main w =
    (Raise (SystemExit 0),
     mkWorld e3 (stdin w)
       (trace w ++
        [Spawn ["git"; "rev-parse"; "--is-inside-work-tree"];
         Print "Fetching all remote branches...";
         Spawn ["git"; "fetch"; "--all"];
         Spawn ["git"; "branch"; "-r"];
         Print "No remote branches found."])
       (log_file w))).
  { enter_main Hcheck Htrue.
    unfold bind at 1, try_except at 1, bind at 1.
    erewrite run_command_eq by exact Hfetch.
    cbn [run_outcome Z.eqb]. unfold ret at 1. cbv beta iota.
    unfold bind at 1, try_except at 1, bind at 1, get_remote_branches, bind at 1.
    unfold after. cbn [os stdin trace log_file].
    erewrite run_command_eq by exact Hlist.
    cbn [run_outcome Z.eqb]. unfold ret at 1. cbv beta iota.
    rewrite parse_remote_branches_map, Hnone. cbn [map]. run. tidy. }
  rewrite Hm. split; reflexivity.
Qed.

(** X5. Once the check, the fetch and the listing have worked and there are
    branches, [main] ends as its loop over the branches ends: when the loop
    returns, the closing message is printed and the exit status is 0; when
    the loop raises, [main] raises the same, at the same point. *)
Theorem main_ends_as_loop_ends w o1 s1 e1 o2 s2 e2 o3 s3 e3 branch branches :
  subprocess_run ["git"; "rev-parse"; "--is-inside-work-tree"]
    DEFAULT_CWD DEFAULT_TIMEOUT (os w) = (Exited 0 o1 s1, e1) ->
  lower (strip o1) = "true" ->
  subprocess_run ["git"; "fetch"; "--all"] DEFAULT_CWD DEFAULT_TIMEOUT e1
    = (Exited 0 o2 s2, e2) ->
  subprocess_run ["git"; "branch"; "-r"] DEFAULT_CWD DEFAULT_TIMEOUT e2
    = (Exited 0 o3 s3, e3) ->
  parse_remote_branches (strip o3) = branch :: branches ->
  let w3 :=
    mkWorld e3 (stdin w)
      (trace w ++
       [Spawn ["git"; "rev-parse"; "--is-inside-work-tree"];
        Print "Fetching all remote branches...";
        Spawn ["git"; "fetch"; "--all"];
        Spawn ["git"; "branch"; "-r"]])
      (log_file w) in
  (forall w4,
     for_each_branch (branch :: branches) w3 = (Ret tt, w4) ->
     main w =
     (Ret tt,
      mkWorld (os w4) (stdin w4)
        (trace w4 ++ [Print (nl ++ "All branches processed.")]) (log_file w4)) /\
     exit_status (fst (main w)) = 0%Z) /\
  (forall e w4,
     for_each_branch (branch :: branches) w3 = (Raise e, w4) ->
     main w = (Raise e, w4)).
Proof.
  intros Hcheck Htrue Hfetch Hlist Hparse w3.
  assert (Hm : main w =
               bind (for_each_branch (branch :: branches))
                    (fun _ => print (nl ++ "All branches processed.")) w3).
  { enter_main Hcheck Htrue.
    unfold bind at 1, try_except at 1, bind at 1.
    erewrite run_command_eq by exact Hfetch.
    cbn [run_outcome Z.eqb]. unfold ret at 1. cbv beta iota.
    unfold bind at 1, try_except at 1, bind at 1, get_remote_branches, bind at 1.
    unfold after. cbn [os stdin trace log_file].
    erewrite run_command_eq by exact Hlist.
    cbn [run_outcome Z.eqb]. unfold ret at 1. cbv beta iota.
    rewrite Hparse. unfold ret at 1. cbv beta iota.
    unfold after, w3. cbn [os stdin trace log_file].
    rewrite <- !app_assoc, !app_nil_r. reflexivity. }
  split.
  - intros w4 Hloop. rewrite Hm. unfold bind. rewrite Hloop.
    split; reflexivity.
  - intros e w4 Hloop. rewrite Hm. unfold bind. rewrite Hloop. reflexivity.
Qed.

(** *** The loop over the branches *)

(** An exception that leaves the body of the loop ends the loop: the
    branches after it are not touched. *)
Lemma loop_stops_at_exception (branch : string) (rest : list string) w e w' :
  process_branch branch w = (Raise e, w') ->
  for_each_branch (branch :: rest) w = (Raise e, w').
Proof.
  intros H. cbn [for_each_branch]. unfold bind. rewrite H. reflexivity.
Qed.


(** X7. When a branch is checked out, its count is a positive integer and
    the pull works, the branch is done after that one pull: nothing is
    written to the log, no prompt is shown and no line is read. *)
Theorem pull_success_finishes_branch (branch : string)
    w o1 s1 e1 o2 s2 e2 n o3 s3 e3 :
  subprocess_run ["git"; "checkout"; branch] DEFAULT_CWD DEFAULT_TIMEOUT (os w)
    = (Exited 0 o1 s1, e1) ->
  subprocess_run (rev_list_count branch) DEFAULT_CWD DEFAULT_TIMEOUT e1
    = (Exited 0 o2 s2, e2) ->
  py_int (strip o2) = Some n ->
  (0 < n)%Z ->
  subprocess_run ["git"; "pull"] DEFAULT_CWD DEFAULT_TIMEOUT e2
    = (Exited 0 o3 s3, e3) ->
  process_branch branch w =
  (Ret tt,
   mkWorld e3 (stdin w)
     (trace w ++
      [Print (nl ++ "Processing branch '" ++ branch ++ "':");
       Print "Checking out branch...";
       Spawn ["git"; "checkout"; branch];
       Spawn (rev_list_count branch);
       Print "  Pulling latest changes...";
       Spawn ["git"; "pull"]])
     (log_file w)).
Proof.
  intros H1 H2 Hn Hpos H3. unfold process_branch. run.
  erewrite run_command_eq by exact H1. cbn [run_outcome Z.eqb]. run.
  erewrite branch_needs_pull_counted with (n := n);
    [ | exact H2 | reflexivity | exact Hn ].
  apply Z.ltb_lt in Hpos. rewrite Hpos. run.
  unfold pull_branch. run.
  erewrite run_command_eq by exact H3. cbn [run_outcome Z.eqb]. run. tidy.
Qed.

(** *** The retry prompt *)

(** X8. When the pull fails, the operator answers "y" and the second pull
    works, the branch is done: one entry has been written for the first
    failure (it is in the log when its write has worked), one line has been
    read and the prompt is not shown again. *)
Theorem retry_success_finishes_branch (branch : string)
    w r1 e1 msg fa e2 answer rest o3 s3 e3 :
  subprocess_run ["git"; "pull"] DEFAULT_CWD DEFAULT_TIMEOUT (os w) = (r1, e1) ->
  run_outcome ["git"; "pull"] DEFAULT_TIMEOUT r1 = Raise (PyException msg) ->
  file_append LOG_FILE (log_entry branch msg) e1 = (fa, e2) ->
  stdin w = answer :: rest ->
  lower (strip answer) = "y" ->
  subprocess_run ["git"; "pull"] DEFAULT_CWD DEFAULT_TIMEOUT e2
    = (Exited 0 o3 s3, e3) ->
  pull_branch branch w =
  (Ret tt,
   mkWorld e3 rest
     (trace w ++
      [Print "  Pulling latest changes...";
       Spawn ["git"; "pull"];
       Print ("  Error pulling branch '" ++ branch ++ "': " ++ msg);
       Append LOG_FILE (log_entry branch msg)]
      ++ write_report fa
      ++ [Prompt (retry_prompt branch);
          Print "  Retrying pull...";
          Spawn ["git"; "pull"];
          Print "  Pull succeeded."])
     (log_file w ++ written fa (log_entry branch msg))).
Proof.
  intros Hrun1 Hr1 Hfa Hin Hy Hrun2. unfold pull_branch. run.
  erewrite run_command_eq by exact Hrun1. rewrite Hr1. run.
  erewrite log_pull_error_eq by exact Hfa. run.
  rewrite Hin. cbn [retry_loop]. run. rewrite Hy.
  cbn [String.eqb Ascii.eqb Bool.eqb]. run.
  erewrite run_command_eq by exact Hrun2. cbn [run_outcome Z.eqb]. run.
  destruct fa as [ex|]; cbn [write_report written app];
    rewrite <- ?app_assoc, ?app_nil_r; reflexivity.
Qed.

(** X9. An answer that is neither "y" nor "n" (once stripped and in lower
    case) changes nothing: a hint is printed and the prompt comes again, with
    no pull and no entry in between. *)
Theorem other_answer_prompts_again (branch answer : string)
    (rest : list string) w :
  lower (strip answer) <> "y" ->
  lower (strip answer) <> "n" ->
  retry_loop branch (answer :: rest) w =
  retry_loop branch rest
    (mkWorld (os w) rest
       (trace w ++
        [Prompt (retry_prompt branch);
         Print "  Please enter 'y' (yes) or 'n' (no)."])
       (log_file w)).
Proof.
  intros Hy Hn. cbn [retry_loop]. run.
  apply String.eqb_neq in Hy, Hn. rewrite Hy, Hn. run.
  rewrite <- app_assoc. reflexivity.
Qed.

(** X10. When the pull has failed and the standard input is at its end, the
    prompt is shown and [input] raises: the exception leaves [pull_branch]
    uncaught, after the entry of the failure has been written. *)
Theorem end_of_input_raises (branch : string) w r e1 msg fa e2 :
  subprocess_run ["git"; "pull"] DEFAULT_CWD DEFAULT_TIMEOUT (os w) = (r, e1) ->
  run_outcome ["git"; "pull"] DEFAULT_TIMEOUT r = Raise (PyException msg) ->
  file_append LOG_FILE (log_entry branch msg) e1 = (fa, e2) ->
  stdin w = [] ->
  pull_branch branch w =
  (Raise (PyException "EOF when reading a line"),
   mkWorld e2 []
     (trace w ++
      [Print "  Pulling latest changes...";
       Spawn ["git"; "pull"];
       Print ("  Error pulling branch '" ++ branch ++ "': " ++ msg);
       Append LOG_FILE (log_entry branch msg)]
      ++ write_report fa
      ++ [Prompt (retry_prompt branch)])
     (log_file w ++ written fa (log_entry branch msg))) /\
  exit_status (fst (pull_branch branch w)) = 1%Z.
Proof.
  intros Hrun Hr Hfa Hin.
  assert (Hp : pull_branch branch w =
    (Raise (PyException "EOF when reading a line"),
     mkWorld e2 []
       (trace w ++
        [Print "  Pulling latest changes...";
         Spawn ["git"; "pull"];
         Print ("  Error pulling branch '" ++ branch ++ "': " ++ msg);
         Append LOG_FILE (log_entry branch msg)]
        ++ write_report fa
        ++ [Prompt (retry_prompt branch)])
       (log_file w ++ written fa (log_entry branch msg)))).
  { unfold pull_branch. run.
    erewrite run_command_eq by exact Hrun. rewrite Hr. run.
    erewrite log_pull_error_eq by exact Hfa. run.
    rewrite Hin. cbn [retry_loop]. run.
    destruct fa as [ex|]; cbn [write_report written app];
      rewrite <- ?app_assoc, ?app_nil_r; reflexivity. }
  rewrite Hp. split; reflexivity.
Qed.

(** *** What a whole run keeps to *)

(** X11. Whatever the outside does, a run of [main] does nothing to it but
    this: it starts one of six git commands (rev-parse, fetch --all,
    branch -r, checkout, rev-list --count, pull), prints, prompts, or
    appends a [Pull error on branch] entry to the file [LOG_FILE]. *)
Theorem main_events_allowed w :
  exists evs,
    trace (snd (main w)) = trace w ++ evs /\ Forall allowed evs.
Proof.
  destruct (safe_main w) as (evs & new & used & Ht & Ha & _).
  exists evs. split; assumption.
Qed.

(** X12. A run of [main] only adds to the log: what was in it stays, in
    front, and each thing added is one entry of the form that
    [log_pull_error] writes. *)
Theorem main_log_append_only w :
  exists new,
    log_file (snd (main w)) = log_file w ++ new /\
    Forall (fun data => exists branch error_message,
                          data = log_entry branch error_message) new.
Proof.
  destruct (safe_main w) as (evs & new & used & _ & Ha & Hl & Hn & _).
  exists new. split; [exact Hl|].
  rewrite Forall_forall in *. intros data Hdata.
  pose proof (Ha _ (Hn _ Hdata)) as [_ Hform]. exact Hform.
Qed.

(** X13. A run of [main] takes lines off the front of the standard input
    and nowhere else, and no more lines than it has shown prompts. *)
Theorem main_reads_at_prompts w :
  exists evs used,
    trace (snd (main w)) = trace w ++ evs /\
    stdin w = used ++ stdin (snd (main w)) /\
    length used <= count is_prompt evs.
Proof.
  destruct (safe_main w) as (evs & new & used & Ht & _ & _ & _ & Hs & Hu & _).
  exists evs, used. repeat split; assumption.
Qed.

(** X14. In a run of [main] there are never more writes to the log than
    pulls, and every new entry in the log is the data of one of the
    writes. *)
Theorem main_logs_after_pulls w :
  exists evs new,
    trace (snd (main w)) = trace w ++ evs /\
    log_file (snd (main w)) = log_file w ++ new /\
    count is_append evs <= count is_pull evs /\
    incl (map (Append LOG_FILE) new) (filter is_append evs).
Proof.
  destruct (safe_main w) as (evs & new & used & Ht & _ & Hl & Hn & _ & _ & Hc).
  exists evs, new. repeat split; try assumption.
  intros ev Hev. apply in_map_iff in Hev as (data & <- & Hdata).
  rewrite Forall_forall in Hn. apply filter_In. split; [|reflexivity].
  apply Hn. exact Hdata.
Qed.

(** *** How a run can end *)

Lemma ro_ret {A : Type} P (a : A) : raises_only P (ret a).
Proof. intros w e H. discriminate H. Qed.

Lemma ro_raise {A : Type} (P : exn -> Prop) e : P e -> raises_only P (@raise A e).
Proof. intros He w e' H. injection H as <-. exact He. Qed.

Lemma ro_emit P ev : raises_only P (emit ev).
Proof. intros w e H. discriminate H. Qed.

Lemma ro_set_stdin P inp : raises_only P (set_stdin inp).
Proof. intros w e H. discriminate H. Qed.

Lemma ro_bind {A B : Type} P (m : M A) (k : A -> M B) :
  raises_only P m -> (forall a, raises_only P (k a)) -> raises_only P (bind m k).
Proof.
  intros Hm Hk w e. unfold bind. pose proof (Hm w) as H1.
  destruct (m w) as [[a|e1] w1]; cbn [fst] in *.
  - apply Hk.
  - intros H. injection H as <-. apply H1. reflexivity.
Qed.

Lemma ro_try_except {A : Type} (P : exn -> Prop) (body : M A) handler :
  raises_only (fun e => (exists msg, e = PyException msg) \/ P e) body ->
  (forall msg, raises_only P (handler msg)) ->
  raises_only P (try_except body handler).
Proof.
  intros Hb Hh w e. unfold try_except. pose proof (Hb w) as H1.
  destruct (body w) as [[a|[msg|code]] w1]; cbn [fst] in *.
  - discriminate.
  - apply Hh.
  - intros H. injection H as <-.
    destruct (H1 _ eq_refl) as [[msg Hmsg]|HP]; [discriminate Hmsg|exact HP].
Qed.

Lemma ro_run_command (P : exn -> Prop) (cmd : list string) :
  (forall msg, P (PyException msg)) -> raises_only P (run_command cmd).
Proof.
  intros HP w e. unfold run_command.
  destruct (subprocess_run cmd DEFAULT_CWD DEFAULT_TIMEOUT (os w)) as [r e1].
  cbn [fst]. destruct (run_outcome_cases cmd r) as [[out ->]|[msg ->]];
    intros H; [discriminate H|injection H as <-; apply HP].
Qed.

Lemma ro_append_log (P : exn -> Prop) (data : string) :
  (forall msg, P (PyException msg)) -> raises_only P (append_log data).
Proof.
  intros HP w e. unfold append_log.
  destruct (file_append LOG_FILE data (os w)) as [[ex|] e1]; cbn [fst];
    intros H; [injection H as <-; apply HP|discriminate H].
Qed.

Lemma ro_int (P : exn -> Prop) (s : string) :
  (forall msg, P (PyException msg)) -> raises_only P (int s).
Proof.
  intros HP. unfold int. destruct (py_int s); [apply ro_ret|].
  apply ro_raise, HP.
Qed.

Ltac quiet :=
  repeat first
    [ assumption
    | apply ro_ret | apply ro_emit | apply ro_set_stdin
    | apply ro_run_command; intros; cbv beta; eauto 8
    | apply ro_append_log; intros; cbv beta; eauto 8
    | apply ro_int; intros; cbv beta; eauto 8
    | apply ro_raise; cbv beta; eauto 8
    | apply ro_bind; [|intro]
    | apply ro_try_except; [|intro]
    | match goal with
      | |- raises_only _ (if ?b then _ else _) => destruct b
      | |- raises_only _ (match ?x with _ => _ end) => destruct x
      end ].

Lemma ro_log_pull_error P (branch error_message : string) :
  raises_only P (log_pull_error branch error_message).
Proof. unfold log_pull_error, print. quiet. Qed.






(** *** [branch_needs_pull] and [get_local_branches] *)

(** X16. [branch_needs_pull] never raises and touches neither the standard
    input nor the log.  It says that no pull is needed exactly when the count
    query has worked and its output is an integer that is not positive; in
    every other case it says that a pull is needed. *)
Theorem branch_needs_pull_answer (branch : string) w r e :
  subprocess_run (rev_list_count branch) DEFAULT_CWD DEFAULT_TIMEOUT (os w)
    = (r, e) ->
  (fst (branch_needs_pull branch w) = Ret false <->
   exists out n,
     run_outcome (rev_list_count branch) DEFAULT_TIMEOUT r = Ret out /\
     py_int out = Some n /\ (n <= 0)%Z) /\
  (fst (branch_needs_pull branch w) = Ret false \/
   fst (branch_needs_pull branch w) = Ret true) /\
  stdin (snd (branch_needs_pull branch w)) = stdin w /\
  log_file (snd (branch_needs_pull branch w)) = log_file w.
Proof.
  intros Hrun.
  destruct (run_outcome_cases (rev_list_count branch) r) as [[out Hout]|[msg Hr]].
  - destruct (py_int out) as [n|] eqn:Hn.
    + rewrite (branch_needs_pull_counted branch w r e out n Hrun Hout Hn).
      unfold after. cbn [fst snd stdin log_file]. rewrite app_nil_r.
      repeat split.
      * intros H. injection H as Hlt. exists out, n.
        apply Z.ltb_ge in Hlt. auto.
      * intros (out' & n' & Hout' & Hn' & Hle).
        rewrite Hout in Hout'. injection Hout' as <-.
        rewrite Hn in Hn'. injection Hn' as <-.
        apply Z.ltb_ge in Hle. rewrite Hle. reflexivity.
      * destruct (0 <? n)%Z; auto.
    + destruct (branch_needs_pull_failed branch w r e Hrun) as [msg ->];
        [right; exists out; auto|].
      unfold after. cbn [fst snd stdin log_file]. rewrite app_nil_r.
      repeat split; auto.
      * discriminate.
      * intros (out' & n' & Hout' & Hn' & _).
        rewrite Hout in Hout'. injection Hout' as <-. congruence.
  - destruct (branch_needs_pull_failed branch w r e Hrun) as [msg' ->];
      [left; exists msg; exact Hr|].
    unfold after. cbn [fst snd stdin log_file]. rewrite app_nil_r.
    repeat split; auto.
    + discriminate.
    + intros (out' & n' & Hout' & _). congruence.
Qed.

Lemma length_lstrip (s : string) :
  lstrip s = s \/ String.length (lstrip s) < String.length s.
Proof.
  induction s as [|c s IH]; [left; reflexivity|].
  cbn [lstrip]. destruct (is_space c); [|left; reflexivity].
  right. cbn [String.length]. destruct IH as [->|IH]; lia.
Qed.

Lemma length_rstrip (s : string) :
  String.length (rstrip s) <= String.length s.
Proof.
  induction s as [|c s IH]; [reflexivity|].
  cbn [rstrip]. destruct (is_space c && is_empty (rstrip s));
    cbn [String.length]; lia.
Qed.

(** A text that [strip] leaves as it is has no white space at either end. *)
Lemma strip_fixed (s : string) :
  strip s = s -> lstrip s = s /\ rstrip s = s.
Proof.
  intros H. unfold strip in H.
  destruct (length_lstrip s) as [Hl|Hl].
  - rewrite Hl in H. split; assumption.
  - pose proof (length_rstrip (lstrip s)) as Hr. rewrite H in Hr. lia.
Qed.

Lemma local_names_fold (lines : list string) :
  forall branches,
    fold_left
      (fun (branches : list string) (line : string) =>
         let branch := strip (lstrip_chars "*" (strip line)) in
         branches ++ [branch])
      lines branches
    = branches ++ map local_name lines.
Proof.
  induction lines as [|l ls IH]; intros branches; cbn [fold_left map].
  - rewrite app_nil_r. reflexivity.
  - rewrite IH, <- app_assoc. reflexivity.
Qed.

(** X17. [get_local_branches] gives one name for each line of the listing,
    in the order of the lines and with no line left out, and no name has
    white space at its ends. *)
Theorem local_branches_one_per_line w names w' :
  get_local_branches w = (Ret names, w') ->
  exists r e output,
    subprocess_run ["git"; "branch"] DEFAULT_CWD DEFAULT_TIMEOUT (os w) = (r, e) /\
    run_outcome ["git"; "branch"] DEFAULT_TIMEOUT r = Ret output /\
    names = map local_name (splitlines output) /\
    length names = length (splitlines output) /\
    Forall (fun name => strip name = name) names.
Proof.
  intros H. unfold get_local_branches, bind in H.
  destruct (subprocess_run ["git"; "branch"] DEFAULT_CWD DEFAULT_TIMEOUT (os w))
    as [r e] eqn:Hrun.
  rewrite (run_command_eq _ _ _ _ Hrun) in H.
  destruct (run_outcome ["git"; "branch"] DEFAULT_TIMEOUT r)
    as [output|ex] eqn:Hout; [|discriminate H].
  unfold ret in H. injection H as Hnames _.
  rewrite local_names_fold in Hnames. cbn [app] in Hnames. subst names.
  exists r, e, output. repeat split.
  - exact Hout.
  - apply length_map.
  - apply Forall_forall. intros name Hin.
    apply in_map_iff in Hin as (line & <- & _).
    unfold local_name. apply strip_idem.
Qed.

(** X18. The mark of the current branch goes: for a name without white
    space at its ends, the line "* name" gives the name; and a line with the
    name behind white space gives the name when it does not start with a
    star. *)
Theorem local_name_of_line (name : string) :
  strip name = name ->
  local_name ("* " ++ name) = name /\
  (lstrip_chars "*" name = name -> local_name ("  " ++ name) = name).
Proof.
  intros H. destruct (strip_fixed name H) as [Hl Hr]. split.
  - unfold local_name, strip.
    change (lstrip ("* " ++ name)) with (String "*" (String " " name)).
    cbn [rstrip]. rewrite Hr.
    change (is_space "*") with false. change (is_space " ") with true.
    cbn [andb]. destruct name as [|c name].
    + reflexivity.
    + cbn [is_empty lstrip_chars list_ascii_of_string existsb].
      change (Ascii.eqb "*" "*") with true.
      change (Ascii.eqb " " "*") with false. cbn [orb lstrip].
      change (is_space " ") with true. cbv iota.
      change (rstrip (lstrip (String c name)) = String c name).
      rewrite Hl. exact Hr.
  - intros Hstar. unfold local_name.
    assert (Hs : strip ("  " ++ name) = name).
    { unfold strip. change (lstrip ("  " ++ name)) with (lstrip name).
      rewrite Hl. exact Hr. }
    rewrite Hs, Hstar. exact H.
Qed.

End Driver.

(** ** The claims on scripted runs *)

Local Abbreviation sr := Scripted.subprocess_run.
Local Abbreviation fa := Scripted.file_append.
Local Abbreviation ve := Scripted.value_error.
Local Abbreviation world := (@mkWorld Scripted.Env).

(** C8 on a run: the checkout of "dev" fails, and the loop goes on with
    "main". *)
Lemma checkout_failure_skips_branch_witness :
  for_each_branch sr fa ve ["dev"; "main"]
    (world (Scripted.env [Exited 1 "" "error: pathspec 'dev'"] []) [] [] [])
  = for_each_branch sr fa ve ["main"]
      (world (Scripted.env [] []) []
         [Print (nl ++ "Processing branch 'dev':");
          Print "Checking out branch...";
          Spawn ["git"; "checkout"; "dev"];
          Print "  Error checking out branch 'dev': error: pathspec 'dev'"]
         []).
Proof.
  exact (proj2 (checkout_failure_skips_branch sr fa ve "dev" ["main"]
                  (world (Scripted.env [Exited 1 "" "error: pathspec 'dev'"] [])
                     [] [] [])
                  (Exited 1 "" "error: pathspec 'dev'") (Scripted.env [] [])
                  "error: pathspec 'dev'" eq_refl eq_refl)).
Defined.

(** C1 on a run: "main" is checked out, the count is "0", no pull. *)
Lemma zero_count_skips_pull_witness :
  process_branch sr fa ve "main"
    (world (Scripted.env [Exited 0 "" ""; Exited 0 ("0" ++ nl) ""] []) [] [] [])
  = (Ret tt,
     world (Scripted.env [] []) []
       [Print (nl ++ "Processing branch 'main':");
        Print "Checking out branch...";
        Spawn ["git"; "checkout"; "main"];
        Spawn ["git"; "rev-list"; "--count"; "main..origin/main"];
        Print "  Branch is already up to date. Skipping pull."]
       []).
Proof.
  exact (proj1 (zero_count_skips_pull sr fa ve "main" []
                  (world (Scripted.env [Exited 0 "" ""; Exited 0 ("0" ++ nl) ""] [])
                     [] [] [])
                  "" "" (Scripted.env [Exited 0 ("0" ++ nl) ""] [])
                  ("0" ++ nl)%string "" (Scripted.env [] [])
                  eq_refl eq_refl eq_refl)).
Defined.

(** C2 on a run: the count query is killed at the timeout, and the check
    says that a pull is needed. *)
Lemma comparison_failure_fails_open_witness :
  fst (branch_needs_pull sr ve "main"
         (world (Scripted.env [TimedOut] []) []
            [Print (nl ++ "Processing branch 'main':");
             Print "Checking out branch...";
             Spawn ["git"; "checkout"; "main"]]
            []))
  = Ret true.
Proof.
  exact (proj1 (comparison_failure_fails_open sr fa ve "main"
                  (world (Scripted.env [Exited 0 "" ""; TimedOut] []) [] [] [])
                  "" "" (Scripted.env [TimedOut] [])
                  TimedOut (Scripted.env [] [])
                  eq_refl eq_refl
                  (or_introl (ex_intro _ _ eq_refl)))).
Defined.

(** C5 on a run: the pull fails, the entry is written, the answer is "n". *)
Lemma skip_after_failed_pull_witness :
  pull_branch sr fa "dev"
    (world (Scripted.env [Exited 1 "" "conflict"] [None]) ["n"] [] [])
  = (Ret tt,
     world (Scripted.env [] []) []
       [Print "  Pulling latest changes...";
        Spawn ["git"; "pull"];
        Print "  Error pulling branch 'dev': conflict";
        Append LOG_FILE ("Pull error on branch 'dev': conflict" ++ nl);
        Prompt "Pull error on branch 'dev'. Try again? (y/n): ";
        Print "  Skipping pull for branch 'dev'."]
       [("Pull error on branch 'dev': conflict" ++ nl)%string]).
Proof.
  exact (skip_after_failed_pull sr fa "dev"
           (world (Scripted.env [Exited 1 "" "conflict"] [None]) ["n"] [] [])
           (Exited 1 "" "conflict") (Scripted.env [] [None]) "conflict"
           None (Scripted.env [] []) "n" []
           eq_refl eq_refl eq_refl eq_refl eq_refl).
Defined.

(** C6 on a run: the pull fails twice with a "y" between, both entries are
    written, and the loop is back at its prompt. *)
Lemma retry_failure_logged_and_prompted_witness :
  pull_branch sr fa "dev"
    (world (Scripted.env [Exited 1 "" "conflict"; TimedOut] []) ["y"; "n"] [] [])
  = retry_loop sr fa "dev" ["n"]
      (world (Scripted.env [] []) ["n"]
         [Print "  Pulling latest changes...";
          Spawn ["git"; "pull"];
          Print "  Error pulling branch 'dev': conflict";
          Append LOG_FILE ("Pull error on branch 'dev': conflict" ++ nl);
          Prompt "Pull error on branch 'dev'. Try again? (y/n): ";
          Print "  Retrying pull...";
          Spawn ["git"; "pull"];
          Print "  Retry failed: Command 'git pull' timed out after 10 seconds.";
          Append LOG_FILE
            ("Pull error on branch 'dev': Retry: Command 'git pull' timed out after 10 seconds."
             ++ nl)]
         [("Pull error on branch 'dev': conflict" ++ nl)%string;
          ("Pull error on branch 'dev': Retry: Command 'git pull' timed out after 10 seconds."
           ++ nl)%string]).
Proof.
  exact (proj1 (retry_failure_logged_and_prompted sr fa "dev"
                  (world (Scripted.env [Exited 1 "" "conflict"; TimedOut] [])
                     ["y"; "n"] [] [])
                  (Exited 1 "" "conflict") (Scripted.env [TimedOut] []) "conflict"
                  None (Scripted.env [TimedOut] []) "y" ["n"]
                  TimedOut (Scripted.env [] [])
                  "Command 'git pull' timed out after 10 seconds."
                  None (Scripted.env [] [])
                  eq_refl eq_refl eq_refl eq_refl eq_refl eq_refl eq_refl eq_refl)).
Defined.

(** C10 on a run: the append is refused, and the call returns. *)
Lemma log_pull_error_returns_witness :
  log_pull_error fa "dev" "conflict"
    (world (Scripted.env [] [Some "Permission denied"]) ["y"] [] [])
  = (Ret tt,
     world (Scripted.env [] []) ["y"]
       [Append LOG_FILE ("Pull error on branch 'dev': conflict" ++ nl);
        Print "Error logging pull error: Permission denied"]
       []).
Proof.
  exact (proj1 (log_pull_error_returns fa "dev" "conflict"
                  (world (Scripted.env [] [Some "Permission denied"]) ["y"] [] [])
                  (Some "Permission denied") (Scripted.env [] []) eq_refl)).
Defined.

(** C7 on a run: outside a repository the query ends with the code 128. *)
Lemma not_a_repository_exits_1_witness :
  exit_status
    (fst (main sr fa ve
            (world (Scripted.env [Exited 128 "" "fatal: not a git repository"] [])
               [] [] [])))
  = 1%Z.
Proof.
  exact (proj1 (proj2 (not_a_repository_exits_1 sr fa ve
                         (world (Scripted.env
                                   [Exited 128 "" "fatal: not a git repository"] [])
                            [] [] [])
                         eq_refl))).
Defined.

(** C9 on a run: the output "true" passes the check. *)
Lemma repo_check_passes_iff_witness :
  fst (is_git_repo sr
         (world (Scripted.env [Exited 0 ("true" ++ nl) ""] []) [] [] []))
  = Ret true.
Proof.
  exact (proj2 (proj1 (repo_check_passes_iff sr fa ve
                         (world (Scripted.env [Exited 0 ("true" ++ nl) ""] [])
                            [] [] [])
                         (Exited 0 ("true" ++ nl) "") (Scripted.env [] [])
                         eq_refl))
               (ex_intro _ _ (ex_intro _ _ (conj eq_refl eq_refl)))).
Defined.

(** C3 on a run: the line of the default branch is dropped. *)
Lemma symbolic_refs_discarded_witness :
  Forall (fun name => str_in "->" name = false) ["main"; "dev"].
Proof.
  exact (proj1 (symbolic_refs_discarded sr
                  (world (Scripted.env
                            [Exited 0
                               ("  origin/HEAD -> origin/main" ++ nl ++
                                "  origin/main" ++ nl ++ "  origin/dev" ++ nl) ""]
                            [])
                     [] [] [])
                  ["main"; "dev"]
                  (world (Scripted.env [] []) [] [Spawn ["git"; "branch"; "-r"]] [])
                  eq_refl)).
Defined.

(** C4 on a listing. *)
Example origin_prefix_stripped_example :
  parse_remote_branches
    ("origin/feature-x" ++ nl ++ "upstream/main" ++ nl ++ "origin/origin/a" ++ nl
     ++ "origin/")
  = ["feature-x"; "upstream/main"; "origin/a"; "origin/"].
Proof. reflexivity. Qed.

(** ** Where the claims as written fail *)

(** C4 as written: a leading "origin/" is not taken off the line "origin/"
    itself, which stays as it is. *)
Lemma bare_origin_line_kept :
  ~ (forall output : string,
       parse_remote_branches output = map strip_remote_prefix (kept_lines output)).
Proof.
  intros H. specialize (H "origin/"). discriminate H.
Qed.

(** C5 as written: when the append to the log is refused, the log has no
    entry for the branch although its pull has failed and the answer was
    "n". *)
Lemma no_log_entry_when_append_fails :
  ~ (forall (Env : Type) subprocess_run file_append (branch : string)
            (w : @World Env) r e msg rest,
       subprocess_run ["git"; "pull"] DEFAULT_CWD DEFAULT_TIMEOUT (os w) = (r, e) ->
       run_outcome ["git"; "pull"] DEFAULT_TIMEOUT r = Raise (PyException msg) ->
       stdin w = "n" :: rest ->
       log_file (snd (pull_branch subprocess_run file_append branch w))
       = log_file w ++ [log_entry branch msg]).
Proof.
  intros H.
  specialize (H Scripted.Env sr fa "dev"
                (world (Scripted.env [Exited 1 "" "conflict"]
                          [Some "Permission denied"]) ["n"] [] [])
                (Exited 1 "" "conflict")
                (Scripted.env [] [Some "Permission denied"]) "conflict" []
                eq_refl eq_refl eq_refl).
  vm_compute in H. discriminate H.
Qed.

(** C6 as written: when the appends to the log are refused, the log has
    neither of the two entries. *)
Lemma no_log_entries_when_appends_fail :
  ~ (forall (Env : Type) subprocess_run file_append (branch : string)
            (w : @World Env) r1 e1 msg1 fa1 e2 rest r2 e3 msg2,
       subprocess_run ["git"; "pull"] DEFAULT_CWD DEFAULT_TIMEOUT (os w) = (r1, e1) ->
       run_outcome ["git"; "pull"] DEFAULT_TIMEOUT r1 = Raise (PyException msg1) ->
       file_append LOG_FILE (log_entry branch msg1) e1 = (fa1, e2) ->
       stdin w = "y" :: rest ->
       subprocess_run ["git"; "pull"] DEFAULT_CWD DEFAULT_TIMEOUT e2 = (r2, e3) ->
       run_outcome ["git"; "pull"] DEFAULT_TIMEOUT r2 = Raise (PyException msg2) ->
       exists more,
         log_file (snd (pull_branch subprocess_run file_append branch w))
         = log_file w
           ++ [log_entry branch msg1; log_entry branch ("Retry: " ++ msg2)]
           ++ more).
Proof.
  intros H.
  specialize (H Scripted.Env sr fa "dev"
                (world (Scripted.env [Exited 1 "" "conflict"; Exited 1 "" "conflict"]
                          [Some "Permission denied"; Some "Permission denied"])
                   ["y"; "n"] [] [])
                (Exited 1 "" "conflict")
                (Scripted.env [Exited 1 "" "conflict"]
                   [Some "Permission denied"; Some "Permission denied"])
                "conflict" (Some "Permission denied")
                (Scripted.env [Exited 1 "" "conflict"] [Some "Permission denied"])
                ["n"] (Exited 1 "" "conflict")
                (Scripted.env [] [Some "Permission denied"]) "conflict"
                eq_refl eq_refl eq_refl eq_refl eq_refl eq_refl).
  destruct H as [more H]. vm_compute in H. discriminate H.
Qed.

(** C9 as written: the output "TRUE" is not the text "true", and the check
    passes. *)
Lemma upper_case_true_passes :
  ~ (forall (Env : Type) subprocess_run (w : @World Env) r e,
       subprocess_run ["git"; "rev-parse"; "--is-inside-work-tree"]
         DEFAULT_CWD DEFAULT_TIMEOUT (os w) = (r, e) ->
       (fst (is_git_repo subprocess_run w) = Ret true <->
        run_outcome ["git"; "rev-parse"; "--is-inside-work-tree"]
          DEFAULT_TIMEOUT r = Ret "true")).
Proof.
  intros H.
  specialize (H Scripted.Env sr
                (world (Scripted.env [Exited 0 "TRUE" ""] []) [] [] [])
                (Exited 0 "TRUE" "") (Scripted.env [] []) eq_refl).
  destruct H as [H _]. specialize (H eq_refl). discriminate H.
Qed.

(** ** More of the script on scripted runs *)

(** X2 on a run: the fetch is killed at the timeout. *)
Lemma fetch_failure_exits_1_witness :
  exit_status
    (fst (main sr fa ve
            (world (Scripted.env [Exited 0 ("true" ++ nl) ""; TimedOut] [])
               [] [] [])))
  = 1%Z.
Proof.
  refine (proj2 (fetch_failure_exits_1 sr fa ve
                   (world (Scripted.env [Exited 0 ("true" ++ nl) ""; TimedOut] [])
                      [] [] [])
                   ("true" ++ nl)%string "" (Scripted.env [TimedOut] [])
                   TimedOut (Scripted.env [] [])
                   "Command 'git fetch --all' timed out after 10 seconds."
                   _ _ _ _)); reflexivity.
Defined.

(** X3 on a run: the listing ends with the code 1. *)
Lemma enumeration_failure_exits_1_witness :
  exit_status
    (fst (main sr fa ve
            (world (Scripted.env
                      [Exited 0 "true" ""; Exited 0 "" ""; Exited 1 "" "fatal"] [])
               [] [] [])))
  = 1%Z.
Proof.
  refine (proj2 (enumeration_failure_exits_1 sr fa ve
                   (world (Scripted.env
                             [Exited 0 "true" ""; Exited 0 "" "";
                              Exited 1 "" "fatal"] [])
                      [] [] [])
                   "true" "" (Scripted.env [Exited 0 "" ""; Exited 1 "" "fatal"] [])
                   "" "" (Scripted.env [Exited 1 "" "fatal"] [])
                   (Exited 1 "" "fatal") (Scripted.env [] []) "fatal"
                   _ _ _ _ _)); reflexivity.
Defined.

(** X4 on a run: the listing has the line of the default branch and no
    other. *)
Lemma empty_listing_exits_0_witness :
  exit_status
    (fst (main sr fa ve
            (world (Scripted.env
                      [Exited 0 "true" ""; Exited 0 "" "";
                       Exited 0 ("  origin/HEAD -> origin/main" ++ nl) ""] [])
               [] [] [])))
  = 0%Z.
Proof.
  refine (proj2 (empty_listing_exits_0 sr fa ve
                   (world (Scripted.env
                             [Exited 0 "true" ""; Exited 0 "" "";
                              Exited 0 ("  origin/HEAD -> origin/main" ++ nl) ""] [])
                      [] [] [])
                   "true" ""
                   (Scripted.env
                      [Exited 0 "" "";
                       Exited 0 ("  origin/HEAD -> origin/main" ++ nl) ""] [])
                   "" ""
                   (Scripted.env
                      [Exited 0 ("  origin/HEAD -> origin/main" ++ nl) ""] [])
                   ("  origin/HEAD -> origin/main" ++ nl)%string ""
                   (Scripted.env [] [])
                   _ _ _ _ _)); reflexivity.
Defined.

(** X5 on a run: one branch, which is up to date. *)
Lemma main_ends_as_loop_ends_witness :
  main sr fa ve
    (world (Scripted.env
              [Exited 0 "true" ""; Exited 0 "" ""; Exited 0 "origin/main" "";
               Exited 0 "" ""; Exited 0 "0" ""] [])
       [] [] [])
  = (Ret tt,
     world (Scripted.env [] []) []
       [Spawn ["git"; "rev-parse"; "--is-inside-work-tree"];
        Print "Fetching all remote branches...";
        Spawn ["git"; "fetch"; "--all"];
        Spawn ["git"; "branch"; "-r"];
        Print (nl ++ "Processing branch 'main':");
        Print "Checking out branch...";
        Spawn ["git"; "checkout"; "main"];
        Spawn ["git"; "rev-list"; "--count"; "main..origin/main"];
        Print "  Branch is already up to date. Skipping pull.";
        Print (nl ++ "All branches processed.")]
       []).
Proof.
  refine (proj1 (proj1 (main_ends_as_loop_ends sr fa ve
                   (world (Scripted.env
                             [Exited 0 "true" ""; Exited 0 "" "";
                              Exited 0 "origin/main" "";
                              Exited 0 "" ""; Exited 0 "0" ""] [])
                      [] [] [])
                   "true" ""
                   (Scripted.env
                      [Exited 0 "" ""; Exited 0 "origin/main" "";
                       Exited 0 "" ""; Exited 0 "0" ""] [])
                   "" ""
                   (Scripted.env
                      [Exited 0 "origin/main" ""; Exited 0 "" ""; Exited 0 "0" ""] [])
                   "origin/main" ""
                   (Scripted.env [Exited 0 "" ""; Exited 0 "0" ""] [])
                   "main" [] _ _ _ _ _)
                 (world (Scripted.env [] []) []
                    [Spawn ["git"; "rev-parse"; "--is-inside-work-tree"];
                     Print "Fetching all remote branches...";
                     Spawn ["git"; "fetch"; "--all"];
                     Spawn ["git"; "branch"; "-r"];
                     Print (nl ++ "Processing branch 'main':");
                     Print "Checking out branch...";
                     Spawn ["git"; "checkout"; "main"];
                     Spawn ["git"; "rev-list"; "--count"; "main..origin/main"];
                     Print "  Branch is already up to date. Skipping pull."]
                    [])
                 _)); vm_compute; reflexivity.
Defined.

(** X7 on a run: three commits behind, and the pull works. *)
Lemma pull_success_finishes_branch_witness :
  process_branch sr fa ve "dev"
    (world (Scripted.env [Exited 0 "" ""; Exited 0 ("3" ++ nl) ""; Exited 0 "" ""] [])
       ["n"] [] [])
  = (Ret tt,
     world (Scripted.env [] []) ["n"]
       [Print (nl ++ "Processing branch 'dev':");
        Print "Checking out branch...";
        Spawn ["git"; "checkout"; "dev"];
        Spawn ["git"; "rev-list"; "--count"; "dev..origin/dev"];
        Print "  Pulling latest changes...";
        Spawn ["git"; "pull"]]
       []).
Proof.
  refine (pull_success_finishes_branch sr fa ve "dev"
            (world (Scripted.env
                      [Exited 0 "" ""; Exited 0 ("3" ++ nl) ""; Exited 0 "" ""] [])
               ["n"] [] [])
            "" "" (Scripted.env [Exited 0 ("3" ++ nl) ""; Exited 0 "" ""] [])
            ("3" ++ nl)%string "" (Scripted.env [Exited 0 "" ""] [])
            3%Z "" "" (Scripted.env [] [])
            _ _ _ _ _); reflexivity.
Defined.

(** X8 on a run: the second pull works. *)
Lemma retry_success_finishes_branch_witness :
  pull_branch sr fa "dev"
    (world (Scripted.env [Exited 1 "" "conflict"; Exited 0 "" ""] [])
       [" Y "; "n"] [] [])
  = (Ret tt,
     world (Scripted.env [] []) ["n"]
       [Print "  Pulling latest changes...";
        Spawn ["git"; "pull"];
        Print "  Error pulling branch 'dev': conflict";
        Append LOG_FILE ("Pull error on branch 'dev': conflict" ++ nl);
        Prompt "Pull error on branch 'dev'. Try again? (y/n): ";
        Print "  Retrying pull...";
        Spawn ["git"; "pull"];
        Print "  Pull succeeded."]
       [("Pull error on branch 'dev': conflict" ++ nl)%string]).
Proof.
  refine (retry_success_finishes_branch sr fa "dev"
            (world (Scripted.env [Exited 1 "" "conflict"; Exited 0 "" ""] [])
               [" Y "; "n"] [] [])
            (Exited 1 "" "conflict") (Scripted.env [Exited 0 "" ""] []) "conflict"
            None (Scripted.env [Exited 0 "" ""] []) " Y " ["n"]
            "" "" (Scripted.env [] [])
            _ _ _ _ _ _); reflexivity.
Defined.

(** X9 on a run: the operator answers "maybe" and then "n". *)
Lemma other_answer_prompts_again_witness :
  retry_loop sr fa "dev" ["maybe"; "n"] (world (Scripted.env [] []) ["maybe"; "n"] [] [])
  = retry_loop sr fa "dev" ["n"]
      (world (Scripted.env [] []) ["n"]
         [Prompt "Pull error on branch 'dev'. Try again? (y/n): ";
          Print "  Please enter 'y' (yes) or 'n' (no)."]
         []).
Proof.
  refine (other_answer_prompts_again sr fa "dev" "maybe" ["n"]
            (world (Scripted.env [] []) ["maybe"; "n"] [] []) _ _);
    vm_compute; discriminate.
Defined.

(** X10 on a run: the pull fails and nobody is there to answer. *)
Lemma end_of_input_raises_witness :
  fst (pull_branch sr fa "dev"
         (world (Scripted.env [Exited 1 "" "conflict"] []) [] [] []))
  = Raise end_of_input.
Proof.
  refine (f_equal fst
            (proj1 (end_of_input_raises sr fa "dev"
                      (world (Scripted.env [Exited 1 "" "conflict"] []) [] [] [])
                      (Exited 1 "" "conflict") (Scripted.env [] []) "conflict"
                      None (Scripted.env [] []) _ _ _ _))); reflexivity.
Defined.

(** X16 on a run: a count of "-2" is taken as up to date. *)
Lemma branch_needs_pull_answer_witness :
  fst (branch_needs_pull sr ve "dev"
         (world (Scripted.env [Exited 0 "-2" ""] []) [] [] []))
  = Ret false.
Proof.
  apply (proj1 (branch_needs_pull_answer sr ve "dev"
                  (world (Scripted.env [Exited 0 "-2" ""] []) [] [] [])
                  (Exited 0 "-2" "") (Scripted.env [] []) eq_refl)).
  exists "-2"%string, (-2)%Z. repeat split; try reflexivity; lia.
Defined.

(** X17 on a run: the current branch, a detached head and another branch. *)
Lemma local_branches_one_per_line_witness :
  Forall (fun name => strip name = name)
    ["main"; "(HEAD detached at 1a2b3c4)"; "dev"].
Proof.
  destruct (local_branches_one_per_line sr
              (world (Scripted.env
                        [Exited 0
                           ("* main" ++ nl ++ "  (HEAD detached at 1a2b3c4)"
                            ++ nl ++ "  dev" ++ nl) ""] [])
                 [] [] [])
              ["main"; "(HEAD detached at 1a2b3c4)"; "dev"]
              (world (Scripted.env [] []) [] [Spawn ["git"; "branch"]] [])
              eq_refl)
    as (r & e & output & _ & _ & _ & _ & H).
  exact H.
Defined.

(** X18 on a name. *)
Lemma local_name_of_line_witness :
  local_name "* feature/login" = "feature/login".
Proof.
  refine (proj1 (local_name_of_line "feature/login" _)). reflexivity.
Defined.
